(** * esp32_automation: sensor control and grow manager

    A shallow embedding of
    [components/sensors/control/sensor_control.c] and
    [components/grow_manager/grow_manager.c], with the properties their
    design document states about them.

    Conventions.
    - C [float] values are IEEE binary32 numbers, modelled with the
      executable specification [SpecFloat] at precision 24 and maximal
      exponent 128 (round to nearest, ties to even).
    - C [int] values are integers in [Z], without wrap-around: the counter
      stays within the bounds of the array it indexes and the macros are
      small constants.
    - A write outside an array is undefined in C: an operation that would do
      one returns [None].
    - [ESP_LOGI] and [ESP_LOGE] only print diagnostics and are left out. *)

From Stdlib Require Import ZArith Bool Lia.
From Stdlib Require Import Floats.SpecFloat.
From stdpp Require Import base option list gmap strings.

Local Open Scope Z_scope.

(** ** Binary32 arithmetic *)

Module Float32.

Definition prec : Z := 24.
Definition emax : Z := 128.

Definition float : Type := spec_float.

Definition add : float -> float -> float := SFadd prec emax.
Definition sub : float -> float -> float := SFsub prec emax.
Definition mul : float -> float -> float := SFmul prec emax.

(** [x < y] and [x > y] of C: false as soon as an operand is a NaN. *)
Definition ltb (x y : float) : bool := SFltb x y.
Definition gtb (x y : float) : bool := SFltb y x.

(** Conversion of an [int] to [float]. *)
Definition of_int (z : Z) : float := binary_normalize prec emax z 0 false.

Definition zero : float := S754_zero false.

(** The literal [1.] once stored in a [float]. *)
Definition one : float := S754_finite false 8388608 (-23).

(** The floats a C program can hold: canonical mantissa, exponent in
    range. *)
Definition valid (x : float) : bool := valid_binary prec emax x.

End Float32.

Abbreviation float := Float32.float.

(** ** Timers

    [struct timer] and [enable_timer] belong to the RTC driver, which is
    outside the files embedded here. *)

Record timer : Type := Build_timer {
  active : bool;
  start_time : Z;
  duration : float
}.

(** Modelled from the spec: [enable_timer] (the Timer's [arm(duration)]) is
    defined in the RTC driver.  The design document gives the timer the
    fields [active], [start_time] and [duration] and says that arming
    "records the current time and sets [active = true]; overwrites any prior
    arming", with durations validated by the caller.  [now] is the time read
    from the RTC device [dev]. *)
Definition enable_timer (now : Z) (t : timer) (d : float) : timer :=
  {| active := true; start_time := now; duration := d |}.

Definition timer_set_active (b : bool) (t : timer) : timer :=
  {| active := b; start_time := start_time t; duration := duration t |}.

(** ** The sensor control structure

    [struct sensor_control] is declared in [sensor_control.h]; the fields
    are those [sensor_control.c] reads and writes.  [sensor_checks] is the
    array of [NUM_CHECKS] flags and [check_index] the debounce counter. *)

Record sensor_control : Type := Build_sensor_control {
  name : string;
  is_control_enabled : bool;
  is_control_active : bool;
  is_doser : bool;
  target_value : float;
  margin_error : float;
  night_target_value : float;
  is_day_night_active : bool;
  sensor_checks : list bool;
  check_index : Z;
  dose_time : float;
  wait_time : float;
  dose_percentage : float;
  dose_timer : timer;
  wait_timer : timer
}.

(** Field assignments. *)

Definition set_name (x : string) (c : sensor_control) : sensor_control :=
  Build_sensor_control x (is_control_enabled c) (is_control_active c)
    (is_doser c) (target_value c) (margin_error c) (night_target_value c)
    (is_day_night_active c) (sensor_checks c) (check_index c) (dose_time c)
    (wait_time c) (dose_percentage c) (dose_timer c) (wait_timer c).

Definition set_is_control_enabled (x : bool) (c : sensor_control) :=
  Build_sensor_control (name c) x (is_control_active c)
    (is_doser c) (target_value c) (margin_error c) (night_target_value c)
    (is_day_night_active c) (sensor_checks c) (check_index c) (dose_time c)
    (wait_time c) (dose_percentage c) (dose_timer c) (wait_timer c).

Definition set_is_control_active (x : bool) (c : sensor_control) :=
  Build_sensor_control (name c) (is_control_enabled c) x
    (is_doser c) (target_value c) (margin_error c) (night_target_value c)
    (is_day_night_active c) (sensor_checks c) (check_index c) (dose_time c)
    (wait_time c) (dose_percentage c) (dose_timer c) (wait_timer c).

Definition set_is_doser (x : bool) (c : sensor_control) :=
  Build_sensor_control (name c) (is_control_enabled c) (is_control_active c)
    x (target_value c) (margin_error c) (night_target_value c)
    (is_day_night_active c) (sensor_checks c) (check_index c) (dose_time c)
    (wait_time c) (dose_percentage c) (dose_timer c) (wait_timer c).

Definition set_target_value (x : float) (c : sensor_control) :=
  Build_sensor_control (name c) (is_control_enabled c) (is_control_active c)
    (is_doser c) x (margin_error c) (night_target_value c)
    (is_day_night_active c) (sensor_checks c) (check_index c) (dose_time c)
    (wait_time c) (dose_percentage c) (dose_timer c) (wait_timer c).

Definition set_margin_error (x : float) (c : sensor_control) :=
  Build_sensor_control (name c) (is_control_enabled c) (is_control_active c)
    (is_doser c) (target_value c) x (night_target_value c)
    (is_day_night_active c) (sensor_checks c) (check_index c) (dose_time c)
    (wait_time c) (dose_percentage c) (dose_timer c) (wait_timer c).

Definition set_night_target_value (x : float) (c : sensor_control) :=
  Build_sensor_control (name c) (is_control_enabled c) (is_control_active c)
    (is_doser c) (target_value c) (margin_error c) x
    (is_day_night_active c) (sensor_checks c) (check_index c) (dose_time c)
    (wait_time c) (dose_percentage c) (dose_timer c) (wait_timer c).

Definition set_is_day_night_active (x : bool) (c : sensor_control) :=
  Build_sensor_control (name c) (is_control_enabled c) (is_control_active c)
    (is_doser c) (target_value c) (margin_error c) (night_target_value c)
    x (sensor_checks c) (check_index c) (dose_time c)
    (wait_time c) (dose_percentage c) (dose_timer c) (wait_timer c).

Definition set_sensor_checks (x : list bool) (c : sensor_control) :=
  Build_sensor_control (name c) (is_control_enabled c) (is_control_active c)
    (is_doser c) (target_value c) (margin_error c) (night_target_value c)
    (is_day_night_active c) x (check_index c) (dose_time c)
    (wait_time c) (dose_percentage c) (dose_timer c) (wait_timer c).

Definition set_check_index (x : Z) (c : sensor_control) :=
  Build_sensor_control (name c) (is_control_enabled c) (is_control_active c)
    (is_doser c) (target_value c) (margin_error c) (night_target_value c)
    (is_day_night_active c) (sensor_checks c) x (dose_time c)
    (wait_time c) (dose_percentage c) (dose_timer c) (wait_timer c).

Definition set_dose_time (x : float) (c : sensor_control) :=
  Build_sensor_control (name c) (is_control_enabled c) (is_control_active c)
    (is_doser c) (target_value c) (margin_error c) (night_target_value c)
    (is_day_night_active c) (sensor_checks c) (check_index c) x
    (wait_time c) (dose_percentage c) (dose_timer c) (wait_timer c).

Definition set_wait_time (x : float) (c : sensor_control) :=
  Build_sensor_control (name c) (is_control_enabled c) (is_control_active c)
    (is_doser c) (target_value c) (margin_error c) (night_target_value c)
    (is_day_night_active c) (sensor_checks c) (check_index c) (dose_time c)
    x (dose_percentage c) (dose_timer c) (wait_timer c).

Definition set_dose_percentage (x : float) (c : sensor_control) :=
  Build_sensor_control (name c) (is_control_enabled c) (is_control_active c)
    (is_doser c) (target_value c) (margin_error c) (night_target_value c)
    (is_day_night_active c) (sensor_checks c) (check_index c) (dose_time c)
    (wait_time c) x (dose_timer c) (wait_timer c).

Definition set_dose_timer (x : timer) (c : sensor_control) :=
  Build_sensor_control (name c) (is_control_enabled c) (is_control_active c)
    (is_doser c) (target_value c) (margin_error c) (night_target_value c)
    (is_day_night_active c) (sensor_checks c) (check_index c) (dose_time c)
    (wait_time c) (dose_percentage c) x (wait_timer c).

Definition set_wait_timer (x : timer) (c : sensor_control) :=
  Build_sensor_control (name c) (is_control_enabled c) (is_control_active c)
    (is_doser c) (target_value c) (margin_error c) (night_target_value c)
    (is_day_night_active c) (sensor_checks c) (check_index c) (dose_time c)
    (wait_time c) (dose_percentage c) (dose_timer c) x.

(** The decision [control_check_sensor] returns, as the [int] the code
    uses. *)
Definition NoAction : Z := 0.
Definition RequestLower : Z := -1.
Definition RequestRaise : Z := 1.

(** ** sensor_control.c *)

Section SensorControl.

(** [NUM_CHECKS] and [SENSOR_MEASUREMENT_PERIOD] (milliseconds) are
    integer macros of headers outside the embedded files. *)
Variable NUM_CHECKS : Z.
Variable SENSOR_MEASUREMENT_PERIOD : Z.

(** [for(int i = 0; i < NUM_CHECKS; i++) sensor_checks[i] = false;
     check_index = 0;] *)
Definition control_reset_checks (c : sensor_control) : sensor_control :=
  set_check_index 0
    (set_sensor_checks
       (foldl (fun l i => <[i := false]> l) (sensor_checks c)
              (seq 0 (Z.to_nat NUM_CHECKS)))
       c).

(** Returns the updated control and the boolean result; [None] when the
    write [sensor_checks[check_index++] = true] would fall outside the
    array. *)
Definition control_add_check (c : sensor_control)
  : option (sensor_control * bool) :=
  if check_index c =? NUM_CHECKS then Some (control_reset_checks c, true)
  else if (0 <=? check_index c)
          && (check_index c <? Z.of_nat (length (sensor_checks c)))
  then Some (set_check_index (check_index c + 1)
               (set_sensor_checks
                  (<[Z.to_nat (check_index c) := true]> (sensor_checks c))
                  c),
             false)
  else None.

(** [is_day] is the global flag of [rtc.h], read at each call. *)
Definition control_get_target_value (is_day : bool) (c : sensor_control)
  : float :=
  if negb is_day && is_day_night_active c
  then night_target_value c else target_value c.

Definition init_sensor_control (c : sensor_control) (name_in : string)
    (is_enabled_in : bool) (target_value_in margin_error_in
     night_target_value_in : float) (is_day_night_in : bool)
  : sensor_control :=
  let c := set_name name_in c in
  let c := set_is_control_enabled is_enabled_in c in
  let c := set_is_control_active false c in
  let c := set_is_doser false c in
  let c := set_target_value target_value_in c in
  let c := set_margin_error margin_error_in c in
  let c := set_night_target_value night_target_value_in c in
  let c := set_is_day_night_active is_day_night_in c in
  control_reset_checks c.

Definition init_doser_control (c : sensor_control)
    (dose_time_in wait_time_in : float) : sensor_control :=
  let c := set_is_doser true c in
  let c := set_dose_time dose_time_in c in
  let c := set_wait_time wait_time_in c in
  set_dose_percentage Float32.one c.

Definition control_get_enabled (c : sensor_control) : bool :=
  is_control_enabled c.
Definition control_get_active (c : sensor_control) : bool :=
  is_control_active c.
Definition control_get_dose_timer (c : sensor_control) : timer :=
  dose_timer c.
Definition control_get_wait_timer (c : sensor_control) : timer :=
  wait_timer c.

Definition control_enable (c : sensor_control) : sensor_control :=
  set_is_control_enabled true c.

Definition control_disable (c : sensor_control) : sensor_control :=
  let c := set_is_control_enabled false c in
  let c := set_is_control_active false c in
  let c := set_dose_timer (timer_set_active false (dose_timer c)) c in
  let c := set_wait_timer (timer_set_active false (wait_timer c)) c in
  control_reset_checks c.

Definition control_is_under_target (is_day : bool) (c : sensor_control)
    (current_value : float) : bool :=
  Float32.ltb current_value
    (Float32.sub (control_get_target_value is_day c) (margin_error c)).

Definition control_is_over_target (is_day : bool) (c : sensor_control)
    (current_value : float) : bool :=
  Float32.gtb current_value
    (Float32.add (control_get_target_value is_day c) (margin_error c)).

(** The last two statements of [control_check_sensor]:
    [if(!is_doser) is_control_active = false; return 0;] *)
Definition check_epilogue (c : sensor_control) : sensor_control * Z :=
  (if negb (is_doser c) then set_is_control_active false c else c, 0).

Definition control_check_sensor (is_day : bool) (c : sensor_control)
    (current_value : float) : option (sensor_control * Z) :=
  if negb (is_control_enabled c) then Some (c, 0)
  else if is_control_active c
          && (is_doser c
              && (active (dose_timer c) || active (wait_timer c)))
  then Some (c, 0)
  else
    let under_target := control_is_under_target is_day c current_value in
    let over_target := control_is_over_target is_day c current_value in
    if under_target || over_target then
      '(c, triggered) ← control_add_check c;
      if triggered : bool
      then Some (set_is_control_active true c,
                 if under_target then -1 else 1)
      else Some (check_epilogue c)
    else if 0 <? check_index c then
      let c := if is_doser c then set_is_control_active false c else c in
      let c := control_reset_checks c in
      Some (check_epilogue c)
    else Some (check_epilogue c).

Definition control_get_dose_time (c : sensor_control) : float :=
  Float32.mul (dose_time c) (dose_percentage c).

Definition control_start_dose_timer (now : Z) (c : sensor_control)
  : sensor_control :=
  set_dose_timer
    (enable_timer now (dose_timer c) (control_get_dose_time c)) c.

(** [NUM_CHECKS * (SENSOR_MEASUREMENT_PERIOD / 1000)] is computed on
    integers (the division truncates) and converted to [float] for the
    subtraction. *)
Definition control_start_wait_timer (now : Z) (c : sensor_control)
  : sensor_control :=
  set_wait_timer
    (enable_timer now (wait_timer c)
       (Float32.sub (wait_time c)
          (Float32.of_int
             (NUM_CHECKS * (SENSOR_MEASUREMENT_PERIOD ÷ 1000)))))
    c.

Definition control_set_dose_percentage (c : sensor_control) (value : float)
  : sensor_control :=
  set_dose_percentage value c.

End SensorControl.

(** ** grow_manager.c *)

(** The tasks whose handles [suspend_tasks] and [resume_tasks] use. *)
Inductive task : Type :=
| timer_alarm_task
| publish_task
| sensor_control_task
| water_temp_sensor_task
| ec_sensor_task
| ph_sensor_task
| sync_task.

(** The calls the grow manager makes to its collaborators: the FreeRTOS
    scheduler, the NVS store and the pH and EC probes. *)
Inductive call : Type :=
| vTaskSuspend (t : task)
| vTaskResume (t : task)
| vTaskDelay (ms : Z)
| nvs_commit_data (key : string) (value : Z)
| hibernate_ph
| hibernate_ec.

(** The globals of the grow manager, the state of its collaborators it
    reads or writes, and the calls issued so far, oldest first.  [nvs] is
    the content of the namespace [GROW_SETTINGS_NVS_NAMESPACE]. *)
Record grow_state : Type := Build_grow_state {
  is_settings_received : bool;
  is_grow_active : bool;
  nvs : gmap string Z;
  is_ph_activated : bool;
  is_ec_activated : bool;
  calls : list call
}.

(** Stateful code: a computation takes the state and returns a result and
    the new state. *)
Definition GM (A : Type) : Type := grow_state -> A * grow_state.

#[global] Instance GM_ret : MRet GM := fun A (a : A) s => (a, s).
#[global] Instance GM_bind : MBind GM :=
  fun A B (k : A -> GM B) (m : GM A) s => let '(a, s') := m s in k a s'.

Definition exec {A : Type} (m : GM A) (s : grow_state) : grow_state :=
  snd (m s).

Definition when (b : bool) (m : GM unit) : GM unit :=
  if b then m else mret tt.

Module GrowOps.

Definition emit (c : call) : GM unit := fun s =>
  (tt, Build_grow_state (is_settings_received s) (is_grow_active s) (nvs s)
         (is_ph_activated s) (is_ec_activated s) (calls s ++ [c])).

Definition set_is_settings_received (b : bool) : GM unit := fun s =>
  (tt, Build_grow_state b (is_grow_active s) (nvs s)
         (is_ph_activated s) (is_ec_activated s) (calls s)).

Definition set_is_grow_active (b : bool) : GM unit := fun s =>
  (tt, Build_grow_state (is_settings_received s) b (nvs s)
         (is_ph_activated s) (is_ec_activated s) (calls s)).

Definition get_is_settings_received : GM bool := fun s =>
  (is_settings_received s, s).

Definition get_is_grow_active : GM bool := fun s => (is_grow_active s, s).

(** [nvs_add_uint8] then [nvs_commit_data] on the handle of the
    namespace: the value is stored under the key. *)
Definition nvs_store_uint8 (key : string) (value : Z) : GM unit := fun s =>
  (tt, Build_grow_state (is_settings_received s) (is_grow_active s)
         (<[key := value]> (nvs s))
         (is_ph_activated s) (is_ec_activated s)
         (calls s ++ [nvs_commit_data key value])).

(** Modelled from the spec: the pH and EC probe modules are outside the
    embedded files; each "exposes [hibernate()] and an 'is activated'
    query consulted by [stop_grow_cycle()]", here a flag with its getter
    and setter. *)
Definition get_is_ph_activated : GM bool := fun s => (is_ph_activated s, s).
Definition get_is_ec_activated : GM bool := fun s => (is_ec_activated s, s).

Definition set_is_ph_activated (b : bool) : GM unit := fun s =>
  (tt, Build_grow_state (is_settings_received s) (is_grow_active s) (nvs s)
         b (is_ec_activated s) (calls s)).

Definition set_is_ec_activated (b : bool) : GM unit := fun s =>
  (tt, Build_grow_state (is_settings_received s) (is_grow_active s) (nvs s)
         (is_ph_activated s) b (calls s)).

End GrowOps.

Section GrowManager.
Import GrowOps.

(** The NVS keys of [nvs_namespace_keys.h]. *)
Variable GROW_ACTIVE_KEY : string.
Variable SETTINGS_RECEIVED_KEY : string.

Definition push_grow_status : GM unit :=
  b ← get_is_grow_active;
  nvs_store_uint8 GROW_ACTIVE_KEY (Z.b2z b).

Definition push_grow_settings_status : GM unit :=
  b ← get_is_settings_received;
  nvs_store_uint8 SETTINGS_RECEIVED_KEY (Z.b2z b).

Definition suspend_tasks : GM unit :=
  emit (vTaskSuspend timer_alarm_task);;
  emit (vTaskSuspend publish_task);;
  emit (vTaskSuspend sensor_control_task);;
  emit (vTaskSuspend water_temp_sensor_task);;
  emit (vTaskSuspend ec_sensor_task);;
  emit (vTaskSuspend ph_sensor_task);;
  emit (vTaskSuspend sync_task).

Definition resume_tasks : GM unit :=
  emit (vTaskResume timer_alarm_task);;
  emit (vTaskResume publish_task);;
  emit (vTaskResume sensor_control_task);;
  emit (vTaskResume water_temp_sensor_task);;
  emit (vTaskResume ec_sensor_task);;
  emit (vTaskResume ph_sensor_task);;
  emit (vTaskResume sync_task).

Definition start_grow_cycle : GM unit :=
  received ← get_is_settings_received;
  if negb received then mret tt
  else
    set_is_grow_active true;;
    push_grow_status;;
    resume_tasks.

Definition stop_grow_cycle : GM unit :=
  set_is_grow_active false;;
  push_grow_status;;
  suspend_tasks;;
  emit (vTaskDelay 4000);;
  ph ← get_is_ph_activated;
  when ph (emit hibernate_ph;; set_is_ph_activated false);;
  ec ← get_is_ec_activated;
  when ec (emit hibernate_ec;; set_is_ec_activated false).

Definition settings_received : GM unit :=
  set_is_settings_received true;;
  push_grow_settings_status.

End GrowManager.

(** ** Notions used in the statements *)

(** The array has [NUM_CHECKS] entries and the counter indexes into it or
    sits one past its end. *)
Definition control_wf (NUM_CHECKS : Z) (c : sensor_control) : Prop :=
  0 <= check_index c <= NUM_CHECKS
  /\ Z.of_nat (length (sensor_checks c)) = NUM_CHECKS.

(** The test [control_check_sensor] makes on an active control: a doser
    whose dose timer or wait timer is active. *)
Definition dose_in_flight (c : sensor_control) : bool :=
  is_control_active c
  && (is_doser c && (active (dose_timer c) || active (wait_timer c))).

Definition out_of_range (is_day : bool) (c : sensor_control) (v : float)
  : bool :=
  control_is_under_target is_day c v || control_is_over_target is_day c v.

(** [under_target ? -1 : 1] *)
Definition direction (is_day : bool) (c : sensor_control) (v : float) : Z :=
  if control_is_under_target is_day c v then RequestLower else RequestRaise.

(** The fields a sample evaluation never writes. *)
Definition same_settings (c c' : sensor_control) : Prop :=
  name c' = name c
  /\ is_control_enabled c' = is_control_enabled c
  /\ is_doser c' = is_doser c
  /\ target_value c' = target_value c
  /\ margin_error c' = margin_error c
  /\ night_target_value c' = night_target_value c
  /\ is_day_night_active c' = is_day_night_active c
  /\ dose_time c' = dose_time c
  /\ wait_time c' = wait_time c
  /\ dose_percentage c' = dose_percentage c
  /\ dose_timer c' = dose_timer c
  /\ wait_timer c' = wait_timer c.

(** Consecutive calls of [control_check_sensor], one per sample; a sample
    is the value of [is_day] at the call and the reading.  Returns the
    final control and the decisions in order. *)
Fixpoint control_check_samples (NUM_CHECKS : Z) (c : sensor_control)
    (samples : list (bool * float)) : option (sensor_control * list Z) :=
  match samples with
  | [] => Some (c, [])
  | (is_day, v) :: rest =>
      '(c1, r) ← control_check_sensor NUM_CHECKS is_day c v;
      '(c2, rs) ← control_check_samples NUM_CHECKS c1 rest;
      Some (c2, r :: rs)
  end.

(** The control of the design document's example: water temperature,
    target 6.0, margin 1.0, not a doser, freshly initialised. *)
Definition blank_timer : timer :=
  {| active := false; start_time := 0; duration := Float32.zero |}.

Definition blank_control : sensor_control :=
  Build_sensor_control "" false false false Float32.zero Float32.zero
    Float32.zero false (replicate 5 false) 0 Float32.zero Float32.zero
    Float32.zero blank_timer blank_timer.

Definition example_control : sensor_control :=
  init_sensor_control 5 blank_control "WATER_TEMP_CONTROL" true
    (Float32.of_int 6) (Float32.of_int 1) (Float32.of_int 6) false.

Definition example_doser : sensor_control :=
  init_doser_control example_control (Float32.of_int 10) (Float32.of_int 30).

(** The duration the design document prescribes for the wait timer:
    [max(0, wait_time - NUM_CHECKS * sample_period_seconds)], a negative
    difference being replaced by zero. *)
Definition spec_wait_duration (NUM_CHECKS SENSOR_MEASUREMENT_PERIOD : Z)
    (c : sensor_control) : float :=
  let d := Float32.sub (wait_time c)
             (Float32.of_int
                (NUM_CHECKS * (SENSOR_MEASUREMENT_PERIOD ÷ 1000))) in
  if Float32.ltb d Float32.zero then Float32.zero else d.

(** The calls a client makes on a control once it is initialised,
    [control_set_dose_percentage] apart. *)
Inductive control_call : Type :=
| call_enable
| call_disable
| call_check_sensor (is_day : bool) (v : float)
| call_start_dose_timer (now : Z)
| call_start_wait_timer (now : Z).

Definition do_call (NUM_CHECKS SENSOR_MEASUREMENT_PERIOD : Z)
    (k : control_call) (c : sensor_control) : option sensor_control :=
  match k with
  | call_enable => Some (control_enable c)
  | call_disable => Some (control_disable NUM_CHECKS c)
  | call_check_sensor is_day v =>
      fst <$> control_check_sensor NUM_CHECKS is_day c v
  | call_start_dose_timer now => Some (control_start_dose_timer now c)
  | call_start_wait_timer now =>
      Some (control_start_wait_timer NUM_CHECKS SENSOR_MEASUREMENT_PERIOD
              now c)
  end.

Fixpoint do_calls (NUM_CHECKS SENSOR_MEASUREMENT_PERIOD : Z)
    (ks : list control_call) (c : sensor_control) : option sensor_control :=
  match ks with
  | [] => Some c
  | k :: ks =>
      c1 ← do_call NUM_CHECKS SENSOR_MEASUREMENT_PERIOD k c;
      do_calls NUM_CHECKS SENSOR_MEASUREMENT_PERIOD ks c1
  end.

(** The tasks [suspend_tasks] names, in its order. *)
Definition all_tasks : list task :=
  [timer_alarm_task; publish_task; sensor_control_task;
   water_temp_sensor_task; ec_sensor_task; ph_sensor_task; sync_task].

Definition is_suspend (k : call) : bool :=
  match k with vTaskSuspend _ => true | _ => false end.

Definition is_hibernate (k : call) : bool :=
  match k with hibernate_ph | hibernate_ec => true | _ => false end.

(** In a sequence of calls, every task suspension comes strictly before
    every hibernation of a probe. *)
Definition suspends_precede_hibernates (l : list call) : Prop :=
  forall (i j : nat) (a b : call),
    l !! i = Some a -> l !! j = Some b ->
    is_suspend a = true -> is_hibernate b = true -> (i < j)%nat.

Definition example_grow_state : grow_state :=
  Build_grow_state false true (<["grow_active" := 1]> ∅) true false [].

(** ** Further notions for the sensor control *)

(** No timer can block the evaluation of a sample: the control is not a
    doser, or neither of its timers is active. *)
Definition timers_idle (c : sensor_control) : bool :=
  negb (is_doser c && (active (dose_timer c) || active (wait_timer c))).

(** The values [control_check_sensor] can return. *)
Definition is_decision (r : Z) : Prop :=
  r = NoAction \/ r = RequestLower \/ r = RequestRaise.

(** ** grow_manager.c: start-up *)

(** Modelled from the spec: [nvs_get_uint8] belongs to the NVS manager,
    outside the embedded files; the design document gives the persistence
    interface a lookup that may find nothing.  The result is the stored
    byte, or [None] when the key is absent: the C function then returns
    [false] and leaves [status] unwritten. *)
Definition nvs_get_uint8 (key : string) : GM (option Z) := fun s =>
  (nvs s !! key, s).

(** [!nvs_get_uint8(..., &status) || !status] *)
Definition status_clear (r : option Z) : bool :=
  match r with
  | None => true
  | Some status => status =? 0
  end.

Section GrowManagerInit.

Variable GROW_ACTIVE_KEY : string.
Variable SETTINGS_RECEIVED_KEY : string.

(** The loaders of the three sensors' settings, defined with the pH, EC and
    water temperature controls, outside the embedded files. *)
Variable ph_get_nvs_settings : GM unit.
Variable ec_get_nvs_settings : GM unit.
Variable water_temp_get_nvs_settings : GM unit.

Definition init_grow_manager : GM unit :=
  status ← nvs_get_uint8 SETTINGS_RECEIVED_KEY;
  if status_clear status then
    GrowOps.set_is_settings_received false;;
    stop_grow_cycle GROW_ACTIVE_KEY
  else
    ph_get_nvs_settings;;
    ec_get_nvs_settings;;
    water_temp_get_nvs_settings;;
    settings_received SETTINGS_RECEIVED_KEY;;
    status ← nvs_get_uint8 GROW_ACTIVE_KEY;
    if status_clear status then stop_grow_cycle GROW_ACTIVE_KEY
    else start_grow_cycle GROW_ACTIVE_KEY.

End GrowManagerInit.

(** A collaborator that leaves the grow manager's globals, the grow
    settings in NVS and the probes' flags alone; it may issue calls. *)
Definition keeps_grow_state (m : GM unit) : Prop :=
  forall s : grow_state,
    is_settings_received (exec m s) = is_settings_received s
    /\ is_grow_active (exec m s) = is_grow_active s
    /\ nvs (exec m s) = nvs s
    /\ is_ph_activated (exec m s) = is_ph_activated s
    /\ is_ec_activated (exec m s) = is_ec_activated s.

(** The operations a client runs on the grow manager after start-up. *)
Inductive grow_op : Type :=
| op_start_grow_cycle
| op_stop_grow_cycle
| op_settings_received.

Definition do_grow_op (GROW_ACTIVE_KEY SETTINGS_RECEIVED_KEY : string)
    (o : grow_op) : GM unit :=
  match o with
  | op_start_grow_cycle => start_grow_cycle GROW_ACTIVE_KEY
  | op_stop_grow_cycle => stop_grow_cycle GROW_ACTIVE_KEY
  | op_settings_received => settings_received SETTINGS_RECEIVED_KEY
  end.

Fixpoint do_grow_ops (GROW_ACTIVE_KEY SETTINGS_RECEIVED_KEY : string)
    (os : list grow_op) (s : grow_state) : grow_state :=
  match os with
  | [] => s
  | o :: os =>
      do_grow_ops GROW_ACTIVE_KEY SETTINGS_RECEIVED_KEY os
        (exec (do_grow_op GROW_ACTIVE_KEY SETTINGS_RECEIVED_KEY o) s)
  end.

(** The flag stored in NVS is the flag in memory. *)
Definition grow_status_persisted (GROW_ACTIVE_KEY : string) (s : grow_state)
  : Prop :=
  nvs s !! GROW_ACTIVE_KEY = Some (Z.b2z (is_grow_active s)).

(** ** bme280.c *)

Module BME280.

(** Conversions to [uint8_t] and [uint32_t]. *)
Definition uint8 (z : Z) : Z := z mod 256.
Definition uint32 (z : Z) : Z := z mod 2 ^ 32.

(** A register field: its [_BITS] mask and its [_SHIFT]. *)
Record reg_field : Type := Build_reg_field {
  field_bits : Z;
  field_shift : Z
}.

Definition BME280_OSR_H : reg_field := Build_reg_field 0x07 0.
Definition BME280_OSR_T : reg_field := Build_reg_field 0xe0 5.
Definition BME280_OSR_P : reg_field := Build_reg_field 0x1c 2.
Definition BME280_MODE : reg_field := Build_reg_field 0x03 0.
Definition BME280_FILTER : reg_field := Build_reg_field 0x1c 2.

(** [( (byte & ~bitname##_BITS) | ((bit << bitname##_SHIFT) & bitname##_BITS) )] *)
Definition bme_set_reg_bit (byte : Z) (f : reg_field) (bit : Z) : Z :=
  Z.lor (Z.land byte (Z.lnot (field_bits f)))
        (Z.land (Z.shiftl bit (field_shift f)) (field_bits f)).

(** [( (byte & bitname##_BITS) >> bitname##_SHIFT )] *)
Definition bme_get_reg_bit (byte : Z) (f : reg_field) : Z :=
  Z.shiftr (Z.land byte (field_bits f)) (field_shift f).

(** The statement [reg = bme_set_reg_bit(reg, F, v);] on a [uint8_t reg],
    as [bme280_set_mode], [bme280_set_oversampling_rates] and
    [bme280_set_filter_size] write it before sending the register back. *)
Definition update_reg (reg : Z) (f : reg_field) (bit : Z) : Z :=
  uint8 (bme_set_reg_bit reg f bit).

(** The fields the driver writes. *)
Definition written_fields : list reg_field :=
  [BME280_MODE; BME280_OSR_T; BME280_OSR_H; BME280_FILTER].

(** [bme280_get_measurement_duration], for non-null arguments: the value
    stored in [*duration] (the function then returns [ESP_OK]).  The
    oversampling settings are the enumeration codes, 0 for none;
    [portTICK_PERIOD_MS] is the FreeRTOS tick period. *)
Definition bme280_get_measurement_duration (portTICK_PERIOD_MS : Z)
    (osr_temperature osr_humidity : Z) : Z :=
  let duration := 0 in
  let duration := uint32 (duration + 1250) in
  let duration :=
    if osr_temperature =? 0 then duration
    else uint32 (duration + Z.shiftl 1 (osr_temperature - 1) * 2300) in
  let duration :=
    if osr_humidity =? 0 then duration
    else uint32 (duration + (Z.shiftl 1 (osr_humidity - 1) * 2300 + 575)) in
  let duration := uint32 (duration + 999) in
  let duration := duration / 1000 in
  let duration := uint32 (duration + 5) in
  let duration :=
    uint32 (duration + portTICK_PERIOD_MS - 1) / portTICK_PERIOD_MS in
  uint32 (duration + 1).

(** The measurement time the comments of the function account for, in
    microseconds: wake-up, then one cycle per enabled quantity. *)
Definition measurement_us (osr_temperature osr_humidity : Z) : Z :=
  1250
  + (if osr_temperature =? 0 then 0 else 2 ^ (osr_temperature - 1) * 2300)
  + (if osr_humidity =? 0 then 0 else 2 ^ (osr_humidity - 1) * 2300 + 575).

(** Register addresses and the offsets derived from them. *)
Definition BME280_REG_MEAS_STATUS_0 : Z := 0x1d.
Definition BME280_REG_PRESS_MSB_0 : Z := 0x1f.
Definition BME280_REG_TEMP_MSB_0 : Z := 0x22.
Definition BME280_REG_HUM_MSB_0 : Z := 0x25.

Definition BME280_RAW_P_OFF : Z :=
  BME280_REG_PRESS_MSB_0 - BME280_REG_MEAS_STATUS_0.
Definition BME280_RAW_T_OFF : Z :=
  BME280_RAW_P_OFF + BME280_REG_TEMP_MSB_0 - BME280_REG_PRESS_MSB_0.
Definition BME280_RAW_H_OFF : Z :=
  BME280_RAW_T_OFF + BME280_REG_HUM_MSB_0 - BME280_REG_TEMP_MSB_0.

(** [(t)((t) b[o] << 12 | (t) b[o+1] << 4 | b[o+2] >> 4)] at
    [t = uint32_t]; [None] when the bytes are not in the array. *)
Definition msb_lsb_xlsb_to_20bit (b : list Z) (o : Z) : option Z :=
  b0 ← b !! Z.to_nat o;
  b1 ← b !! Z.to_nat (o + 1);
  b2 ← b !! Z.to_nat (o + 2);
  Some (uint32 (Z.lor (Z.lor (Z.shiftl b0 12) (Z.shiftl b1 4))
                      (Z.shiftr b2 4))).

(** [(t)(((t)b[o] << 8) | b[o+1])] at [t = uint16_t]. *)
Definition msb_lsb_to_type (b : list Z) (o : Z) : option Z :=
  b0 ← b !! Z.to_nat o;
  b1 ← b !! Z.to_nat (o + 1);
  Some (Z.lor (Z.shiftl b0 8) b1 mod 2 ^ 16).

(** The two conversions at the end of [bme280_get_raw_data], from the
    bytes read at [BME280_REG_RAW_DATA_0]: raw temperature and raw
    humidity. *)
Definition raw_data_of_bytes (raw : list Z) : option (Z * Z) :=
  temperature ← msb_lsb_xlsb_to_20bit raw BME280_RAW_T_OFF;
  humidity ← msb_lsb_to_type raw BME280_RAW_H_OFF;
  Some (temperature, humidity).

End BME280.

(** The bytes, for exhaustive checks. *)
Definition byte_values : list Z := Z.of_nat <$> seq 0 256.

(** What a write to a register field must achieve, decided on one
    register value and one field value. *)
Definition field_write_ok (f : BME280.reg_field) (reg v : Z) : bool :=
  let r := BME280.update_reg reg f v in
  (0 <=? r) && (r <? 256)
  && (BME280.bme_get_reg_bit r f
      =? Z.land v (Z.shiftr (BME280.field_bits f) (BME280.field_shift f)))
  && (Z.land r (Z.lnot (BME280.field_bits f))
      =? Z.land reg (Z.lnot (BME280.field_bits f))).

(** ** boot.c: connecting to WiFi *)

Module Wifi.

(** [#define WIFI_CONNECTED_BIT (1<<0)] and [#define WIFI_FAIL_BIT (1<<1)],
    as [main.c] has them. *)
Definition WIFI_CONNECTED_BIT : Z := Z.shiftl 1 0.
Definition WIFI_FAIL_BIT : Z := Z.shiftl 1 1.

(** The event bases the handler tells apart. *)
Inductive esp_event_base : Type :=
| IP_EVENT
| WIFI_EVENT
| OTHER_EVENT_BASE.

Definition is_base (a b : esp_event_base) : bool :=
  match a, b with
  | IP_EVENT, IP_EVENT | WIFI_EVENT, WIFI_EVENT
  | OTHER_EVENT_BASE, OTHER_EVENT_BASE => true
  | _, _ => false
  end.

(** The handler's state: the retry counter, the bits of
    [wifi_event_group], and the number of [esp_wifi_connect] calls made. *)
Record wifi_state : Type := Build_wifi_state {
  retryNumber : Z;
  wifi_event_group : Z;
  connect_calls : nat
}.

Definition xEventGroupSetBits (bits : Z) (st : wifi_state) : wifi_state :=
  Build_wifi_state (retryNumber st) (Z.lor (wifi_event_group st) bits)
    (connect_calls st).

(** The test [xEventGroupWaitBits] makes when [xWaitForAllBits] is
    [pdFALSE]: one of the bits waited for is set. *)
Definition wait_bits_set (bits bits_to_wait_for : Z) : bool :=
  negb (Z.land bits bits_to_wait_for =? 0).

(** How a call ends: it returns a value; it is still blocked when the
    events considered have all been handled; or [ESP_ERROR_CHECK] aborted
    the program. *)
Inductive call_result (A : Type) : Type :=
| Returned (a : A)
| Blocked
| Aborted.

Arguments Returned {A} a.
Arguments Blocked {A}.
Arguments Aborted {A}.

Section Handler.

(** [RETRYMAX] ([main.c] defines it as 5) and the event identifiers of
    ESP-IDF. *)
Variable RETRYMAX : Z.
Variable IP_EVENT_STA_GOT_IP : Z.
Variable WIFI_EVENT_STA_START : Z.
Variable WIFI_EVENT_STA_DISCONNECTED : Z.

(** [wifi_event_handler] of [boot.c] ([event_handler] of [main.c] is the
    same code).  [connect_ok] tells whether [esp_wifi_connect] returns
    [ESP_OK]; [ESP_ERROR_CHECK] aborts the program otherwise, which is
    [None]. *)
Definition wifi_event_handler (connect_ok : bool) (st : wifi_state)
    (event_base : esp_event_base) (event_id : Z) : option wifi_state :=
  if is_base event_base IP_EVENT && (event_id =? IP_EVENT_STA_GOT_IP) then
    Some (xEventGroupSetBits WIFI_CONNECTED_BIT
            (Build_wifi_state 0 (wifi_event_group st) (connect_calls st)))
  else if is_base event_base WIFI_EVENT
          && (event_id =? WIFI_EVENT_STA_START) then
    if connect_ok
    then Some (Build_wifi_state 0 (wifi_event_group st)
                 (S (connect_calls st)))
    else None
  else if is_base event_base WIFI_EVENT
          && (event_id =? WIFI_EVENT_STA_DISCONNECTED) then
    if retryNumber st <? RETRYMAX
    then Some (Build_wifi_state (retryNumber st + 1) (wifi_event_group st)
                 (S (connect_calls st)))
    else Some (xEventGroupSetBits WIFI_FAIL_BIT st)
  else Some st.

(** The events dispatched to the handler, in order, each with the outcome
    of the [esp_wifi_connect] call it may make. *)
Fixpoint handle_events (events : list (bool * esp_event_base * Z))
    (st : wifi_state) : option wifi_state :=
  match events with
  | [] => Some st
  | (connect_ok, event_base, event_id) :: rest =>
      st1 ← wifi_event_handler connect_ok st event_base event_id;
      handle_events rest st1
  end.

Definition is_got_ip (e : bool * esp_event_base * Z) : bool :=
  is_base e.1.2 IP_EVENT && (e.2 =? IP_EVENT_STA_GOT_IP).

(** [xEventGroupWaitBits(wifi_event_group, bits_to_wait_for, pdFALSE,
    pdFALSE, portMAX_DELAY)]: the call returns the bits of the group as
    soon as one of the bits waited for is set, at once when one is set
    already; it clears none and has no time-out.  Until then the event
    loop calls the handler for the [events], in order; the events left
    when the call returns are handled too late to be seen. *)
Fixpoint xEventGroupWaitBits (bits_to_wait_for : Z)
    (events : list (bool * esp_event_base * Z)) (st : wifi_state)
  : call_result Z :=
  if wait_bits_set (wifi_event_group st) bits_to_wait_for
  then Returned (wifi_event_group st)
  else
    match events with
    | [] => Blocked
    | (connect_ok, event_base, event_id) :: rest =>
        match wifi_event_handler connect_ok st event_base event_id with
        | None => Aborted
        | Some st1 => xEventGroupWaitBits bits_to_wait_for rest st1
        end
    end.

(** [connect_wifi].  [xEventGroupCreate] gives a group with no bit set;
    [setup_ok] tells whether the ESP-IDF calls under [ESP_ERROR_CHECK]
    return [ESP_OK].  The handler runs in the event loop task: it is
    called for the first [early] of the [events] before the calling task
    reaches [xEventGroupWaitBits], for the others while that task waits.
    After the wait, [true] is returned when
    [(sta_event_bits & WIFI_CONNECTED_BIT) != 0], and [false] otherwise,
    whether the failure bit is set or not. *)
Definition connect_wifi (setup_ok : bool) (early : nat)
    (events : list (bool * esp_event_base * Z)) (st : wifi_state)
  : call_result bool :=
  let st := Build_wifi_state (retryNumber st) 0 (connect_calls st) in
  if negb setup_ok then Aborted
  else
    match handle_events (take early events) st with
    | None => Aborted
    | Some st1 =>
        match xEventGroupWaitBits (Z.lor WIFI_CONNECTED_BIT WIFI_FAIL_BIT)
                (drop early events) st1 with
        | Returned sta_event_bits =>
            if negb (Z.land sta_event_bits WIFI_CONNECTED_BIT =? 0)
            then Returned true
            else Returned false
        | Blocked => Blocked
        | Aborted => Aborted
        end
    end.

End Handler.

End Wifi.

(** ** mqtt_manager.c: building strings *)

Module CString.

(** A heap block holding a C string: [capacity] bytes were allocated, and
    [text] are the characters before the terminating NUL (a string holds no
    NUL of its own). *)
Record buffer : Type := Build_buffer {
  capacity : nat;
  text : string
}.

(** How a function ends: it returns, it restarts the chip ([restart_esp32]
    does not return), or it writes outside a block or through a null
    pointer, which C leaves undefined. *)
Inductive outcome (A : Type) : Type :=
| Done (a : A)
| Restarted
| Undefined.

Arguments Done {A} a.
Arguments Restarted {A}.
Arguments Undefined {A}.

Definition strlen (s : string) : nat := String.length s.

(** [strcpy(dst, src)] writes the characters of [src] and a NUL. *)
Definition strcpy (dst : buffer) (src : string) : outcome buffer :=
  if (strlen src + 1 <=? capacity dst)%nat
  then Done (Build_buffer (capacity dst) src)
  else Undefined.

(** [strcat(dst, src)] writes the characters of [src] and a NUL after the
    text of [dst]. *)
Definition strcat (dst : buffer) (src : string) : outcome buffer :=
  if (strlen (text dst) + strlen src + 1 <=? capacity dst)%nat
  then Done (Build_buffer (capacity dst) (text dst +:+ src))
  else Undefined.

(** A block fresh from [malloc]: its content is not a string yet. *)
Definition fresh_block (n : nat) : buffer := Build_buffer n "".

(** [create_str]; [malloc_ok] tells whether [malloc] returns a block. *)
Definition create_str (malloc_ok : bool) (init_str : string)
  : outcome buffer :=
  if negb malloc_ok then Restarted
  else strcpy (fresh_block (strlen init_str * 1)) init_str.

(** [append_str]; [realloc] keeps the text, the new size being larger than
    it; [realloc_ok] tells whether it returns a block. *)
Definition append_str (realloc_ok : bool) (str : buffer)
    (str_to_add : string) : outcome buffer :=
  if negb realloc_ok then Restarted
  else
    strcat (Build_buffer ((strlen (text str) + strlen str_to_add) * 1 + 1)
              (text str))
           str_to_add.

End CString.

(** * Properties *)

(** ** The checks array *)

Section ResetLoop.

Let clear (l : list bool) (i : nat) : list bool := <[i := false]> l.

Lemma reset_loop_length (n i : nat) (l : list bool) :
  length (foldl clear l (seq i n)) = length l.
Proof.
  revert i l. induction n as [|n IH]; intros i l; simpl; [done|].
  rewrite IH. apply length_insert.
Qed.

Lemma reset_loop_lookup (n i j : nat) (l : list bool) :
  foldl clear l (seq i n) !! j
  = if decide (i <= j < i + n)%nat then (fun _ => false) <$> l !! j
    else l !! j.
Proof.
  revert i l. induction n as [|n IH]; intros i l; simpl.
  - case_decide; [lia|done].
  - rewrite IH. unfold clear at 1 2.
    destruct (decide (i = j)) as [->|Hne].
    + rewrite !decide_False by lia. rewrite decide_True by lia.
      destruct (decide (j < length l)%nat) as [Hlt|Hge].
      * rewrite list_lookup_insert_eq by done.
        destruct (lookup_lt_is_Some_2 l j Hlt) as [b ->]. done.
      * rewrite list_insert_ge by lia.
        rewrite (lookup_ge_None_2 l j) by lia. done.
    + rewrite list_lookup_insert_ne by done.
      repeat case_decide; try done; lia.
Qed.

Lemma reset_loop_replicate (n : nat) (l : list bool) :
  length l = n -> foldl clear l (seq 0 n) = replicate n false.
Proof.
  intros Hlen. apply list_eq. intros j. rewrite reset_loop_lookup.
  destruct (decide (j < n)%nat) as [Hlt|Hge].
  - rewrite decide_True by lia. rewrite lookup_replicate_2 by done.
    destruct (lookup_lt_is_Some_2 l j) as [b ->]; [lia|done].
  - rewrite decide_False by lia.
    rewrite lookup_ge_None_2 by lia.
    symmetry. apply lookup_replicate_None. lia.
Qed.

Lemma reset_loop_idempotent (n : nat) (l : list bool) :
  foldl clear (foldl clear l (seq 0 n)) (seq 0 n) = foldl clear l (seq 0 n).
Proof.
  apply list_eq. intros j. rewrite !reset_loop_lookup.
  case_decide; [|done]. destruct (l !! j); done.
Qed.

Lemma reset_loop_cleared (n : nat) (l : list bool) :
  Forall (fun b => b = false) (take n (foldl clear l (seq 0 n))).
Proof.
  apply Forall_lookup. intros j b Hj.
  apply lookup_take_Some in Hj as [Hj Hlt].
  rewrite reset_loop_lookup, decide_True in Hj by lia.
  destruct (l !! j); simpl in Hj; congruence.
Qed.

End ResetLoop.

(** ** One sample evaluation *)

#[local] Arguments control_is_under_target : simpl never.
#[local] Arguments control_is_over_target : simpl never.
#[local] Arguments control_reset_checks : simpl never.

Ltac unfold_setters :=
  unfold check_epilogue, set_name, set_is_control_enabled,
    set_is_control_active, set_is_doser, set_target_value, set_margin_error,
    set_night_target_value, set_is_day_night_active, set_sensor_checks,
    set_check_index, set_dose_time, set_wait_time, set_dose_percentage,
    set_dose_timer, set_wait_timer in *.

Section SensorControlFacts.

Variable N : Z.

Lemma same_settings_refl (c : sensor_control) : same_settings c c.
Proof. repeat split. Qed.

Lemma same_settings_trans (c1 c2 c3 : sensor_control) :
  same_settings c1 c2 -> same_settings c2 c3 -> same_settings c1 c3.
Proof.
  unfold same_settings. intros H12 H23.
  decompose [and] H12. decompose [and] H23.
  repeat apply conj; congruence.
Qed.

Lemma under_target_same_settings (c c' : sensor_control) d v :
  same_settings c c' ->
  control_is_under_target d c' v = control_is_under_target d c v.
Proof.
  unfold same_settings, control_is_under_target, control_get_target_value.
  intros (_ & _ & _ & -> & -> & -> & -> & _). done.
Qed.

Lemma over_target_same_settings (c c' : sensor_control) d v :
  same_settings c c' ->
  control_is_over_target d c' v = control_is_over_target d c v.
Proof.
  unfold same_settings, control_is_over_target, control_get_target_value.
  intros (_ & _ & _ & -> & -> & -> & -> & _). done.
Qed.

Lemma out_of_range_same_settings (c c' : sensor_control) d v :
  same_settings c c' -> out_of_range d c' v = out_of_range d c v.
Proof.
  intros H. unfold out_of_range.
  by rewrite (under_target_same_settings c c'),
             (over_target_same_settings c c').
Qed.

Lemma reset_checks_index (c : sensor_control) :
  check_index (control_reset_checks N c) = 0.
Proof. done. Qed.

Lemma reset_checks_length (c : sensor_control) :
  length (sensor_checks (control_reset_checks N c))
  = length (sensor_checks c).
Proof. apply reset_loop_length. Qed.

Lemma reset_checks_wf (c : sensor_control) :
  0 <= N -> Z.of_nat (length (sensor_checks c)) = N ->
  control_wf N (control_reset_checks N c).
Proof.
  intros HN Hlen. split.
  - rewrite reset_checks_index. lia.
  - by rewrite reset_checks_length.
Qed.

Lemma reset_checks_idempotent (c : sensor_control) :
  control_reset_checks N (control_reset_checks N c)
  = control_reset_checks N c.
Proof.
  destruct c. unfold control_reset_checks. simpl.
  by rewrite reset_loop_idempotent.
Qed.

(** The guards at the top of [control_check_sensor]. *)

Lemma check_disabled d (c : sensor_control) v :
  is_control_enabled c = false ->
  control_check_sensor N d c v = Some (c, NoAction).
Proof. intros He. unfold control_check_sensor. by rewrite He. Qed.

Lemma check_in_flight d (c : sensor_control) v :
  is_control_enabled c = true -> dose_in_flight c = true ->
  control_check_sensor N d c v = Some (c, NoAction).
Proof.
  intros He Hf. unfold control_check_sensor. rewrite He. simpl.
  change (is_control_active c && _) with (dose_in_flight c).
  by rewrite Hf.
Qed.

(** Past the guards, the body. *)
Lemma check_body d (c : sensor_control) v :
  is_control_enabled c = true -> dose_in_flight c = false ->
  control_check_sensor N d c v =
    if out_of_range d c v then
      '(c1, triggered) ← control_add_check N c;
      if triggered : bool
      then Some (set_is_control_active true c1, direction d c v)
      else Some (check_epilogue c1)
    else if 0 <? check_index c then
      Some (check_epilogue
              (control_reset_checks N
                 (if is_doser c then set_is_control_active false c
                  else c)))
    else Some (check_epilogue c).
Proof.
  intros He Hf. unfold control_check_sensor. rewrite He. simpl.
  change (is_control_active c && _) with (dose_in_flight c).
  by rewrite Hf.
Qed.

Lemma add_check_full (c : sensor_control) :
  check_index c = N ->
  control_add_check N c = Some (control_reset_checks N c, true).
Proof.
  intros Hi. unfold control_add_check. by rewrite Hi, Z.eqb_refl.
Qed.

Lemma add_check_room (c : sensor_control) :
  0 <= check_index c < N -> Z.of_nat (length (sensor_checks c)) = N ->
  control_add_check N c
  = Some (set_check_index (check_index c + 1)
            (set_sensor_checks
               (<[Z.to_nat (check_index c) := true]> (sensor_checks c)) c),
          false).
Proof.
  intros Hi Hlen. unfold control_add_check.
  destruct (Z.eqb_spec (check_index c) N) as [?|_]; [lia|].
  rewrite Hlen.
  destruct (Z.leb_spec 0 (check_index c)); [|lia].
  destruct (Z.ltb_spec (check_index c) N); [done|lia].
Qed.



(** An out-of-range sample met with room in the array is recorded, and
    nothing is decided. *)
Lemma check_accumulate d (c : sensor_control) v :
  is_control_enabled c = true -> dose_in_flight c = false ->
  out_of_range d c v = true ->
  0 <= check_index c < N -> Z.of_nat (length (sensor_checks c)) = N ->
  exists c',
    control_check_sensor N d c v = Some (c', NoAction)
    /\ check_index c' = check_index c + 1
    /\ sensor_checks c'
       = <[Z.to_nat (check_index c) := true]> (sensor_checks c)
    /\ is_control_active c' = is_doser c && is_control_active c
    /\ same_settings c c'
    /\ dose_in_flight c' = false.
Proof.
  intros He Hf Ho Hi Hlen.
  rewrite check_body, Ho, add_check_room by done. simpl.
  eexists. split; [reflexivity|].
  unfold dose_in_flight in *. unfold_setters. simpl.
  destruct (is_doser c) eqn:Hd; simpl; repeat apply conj; done.
Qed.

(** An out-of-range sample met with a full array triggers. *)
Lemma check_trigger d (c : sensor_control) v :
  is_control_enabled c = true -> dose_in_flight c = false ->
  out_of_range d c v = true -> check_index c = N ->
  control_check_sensor N d c v
  = Some (set_is_control_active true (control_reset_checks N c),
          direction d c v).
Proof.
  intros He Hf Ho Hi. by rewrite check_body, Ho, add_check_full.
Qed.

(** An in-range sample clears the counter and decides nothing. *)
Lemma check_in_range d (c : sensor_control) v :
  is_control_enabled c = true -> dose_in_flight c = false ->
  out_of_range d c v = false -> 0 <= check_index c ->
  exists c',
    control_check_sensor N d c v = Some (c', NoAction)
    /\ check_index c' = 0
    /\ length (sensor_checks c') = length (sensor_checks c)
    /\ is_control_active c'
       = is_doser c && is_control_active c && (check_index c =? 0)
    /\ same_settings c c'.
Proof.
  intros He Hf Ho Hi. rewrite check_body, Ho by done.
  destruct (Z.ltb_spec 0 (check_index c)) as [Hpos|Hzero].
  - eexists. split; [reflexivity|].
    destruct (Z.eqb_spec (check_index c) 0) as [?|_]; [lia|].
    rewrite andb_false_r.
    unfold check_epilogue.
    destruct (is_doser c) eqn:Hd; simpl; rewrite Hd; simpl;
      (repeat apply conj; try done; try apply reset_loop_length).
  - eexists. split; [reflexivity|].
    assert (check_index c = 0) as Hz by lia. rewrite Hz. simpl.
    rewrite andb_true_r. unfold check_epilogue.
    destruct (is_doser c) eqn:Hd; simpl; repeat apply conj; try done.
Qed.

(** On an array of [NUM_CHECKS] entries the reset leaves every entry
    clear. *)
Lemma reset_checks_all_clear (c : sensor_control) :
  Z.of_nat (length (sensor_checks c)) = N ->
  sensor_checks (control_reset_checks N c) = replicate (Z.to_nat N) false.
Proof.
  intros Hlen. unfold control_reset_checks. simpl.
  apply reset_loop_replicate. lia.
Qed.

(** A sample evaluation on a well-formed control never writes outside the
    array, and leaves the control well formed. *)
Lemma check_sensor_wf d (c : sensor_control) v :
  control_wf N c ->
  exists c' r,
    control_check_sensor N d c v = Some (c', r) /\ control_wf N c'.
Proof.
  intros Hwf. pose proof Hwf as [Hi Hlen].
  destruct (is_control_enabled c) eqn:He;
    [|by exists c, NoAction; rewrite check_disabled].
  destruct (dose_in_flight c) eqn:Hf;
    [by exists c, NoAction; rewrite check_in_flight|].
  destruct (out_of_range d c v) eqn:Ho.
  - destruct (decide (check_index c = N)) as [Hfull|Hroom].
    + eexists _, _. split; [by apply check_trigger|].
      apply reset_checks_wf; [lia|done].
    + destruct (check_accumulate d c v)
        as (c' & Hc' & Hi' & Hs' & _); try done; [lia|].
      exists c', NoAction. split; [done|]. split; [lia|].
      by rewrite Hs', length_insert.
  - destruct (check_in_range d c v)
      as (c' & Hc' & Hi' & Hlen' & _); try done; [lia|].
    exists c', NoAction. split; [done|]. split; [lia|].
    by rewrite Hlen'.
Qed.

End SensorControlFacts.

(** ** Consecutive sample evaluations *)

Section Debounce.

Variable N : Z.

Lemma check_samples_app (l1 l2 : list (bool * float)) :
  forall c : sensor_control,
  control_check_samples N c (l1 ++ l2)
  = '(c1, r1) ← control_check_samples N c l1;
    '(c2, r2) ← control_check_samples N c1 l2;
    Some (c2, r1 ++ r2).
Proof.
  induction l1 as [|[d v] l1 IH]; intros c; simpl.
  - by destruct (control_check_samples N c l2) as [[c2 r2]|].
  - destruct (control_check_sensor N d c v) as [[c1 r]|]; simpl; [|done].
    rewrite IH.
    destruct (control_check_samples N c1 l1) as [[c2 r1]|]; simpl; [|done].
    by destruct (control_check_samples N c2 l2) as [[c3 r2]|].
Qed.

(** While the array has room, out-of-range samples of either direction
    are counted and nothing is decided. *)
Lemma debounce_accumulates (samples : list (bool * float)) :
  forall c : sensor_control,
  control_wf N c ->
  is_control_enabled c = true -> dose_in_flight c = false ->
  Forall (fun s => out_of_range s.1 c s.2 = true) samples ->
  check_index c + Z.of_nat (length samples) <= N ->
  exists c',
    control_check_samples N c samples
    = Some (c', replicate (length samples) NoAction)
    /\ check_index c' = check_index c + Z.of_nat (length samples)
    /\ Z.of_nat (length (sensor_checks c')) = N
    /\ same_settings c c'
    /\ dose_in_flight c' = false.
Proof.
  induction samples as [|[d v] rest IH]; intros c [Hi Hlen] He Hf Hall Hroom.
  - exists c. simpl.
    repeat apply conj; try done; try lia; apply same_settings_refl.
  - apply Forall_cons in Hall as [Ho Hall]. simpl in Ho, Hroom.
    destruct (check_accumulate N d c v)
      as (c1 & Hc1 & Hi1 & Hs1 & _ & Hss1 & Hf1); try done; [lia|].
    assert (Z.of_nat (length (sensor_checks c1)) = N) as Hlen1
      by (by rewrite Hs1, length_insert).
    destruct (IH c1) as (c2 & Hc2 & Hi2 & Hlen2 & Hss2 & Hf2); try done.
    + split; [lia|done].
    + destruct Hss1 as (_ & -> & _). done.
    + eapply Forall_impl; [exact Hall|]. intros [d' v'] Ho'. simpl in *.
      by rewrite (out_of_range_same_settings c c1).
    + lia.
    + exists c2. simpl. rewrite Hc1. simpl. rewrite Hc2. simpl.
      split; [done|]. split; [lia|]. split; [done|]. split; [|done].
      by apply (same_settings_trans c c1 c2).
Qed.

(** Once the array is full, the next out-of-range sample triggers, in
    the direction of that sample. *)
Lemma debounce_triggers (samples : list (bool * float)) d v
    (c : sensor_control) :
  control_wf N c ->
  is_control_enabled c = true -> dose_in_flight c = false ->
  Forall (fun s => out_of_range s.1 c s.2 = true) samples ->
  out_of_range d c v = true ->
  Z.of_nat (length samples) = N - check_index c ->
  exists c1 c2,
    control_check_samples N c samples
    = Some (c1, replicate (length samples) NoAction)
    /\ check_index c1 = N
    /\ control_check_sensor N d c1 v = Some (c2, direction d c v)
    /\ check_index c2 = 0
    /\ is_control_active c2 = true.
Proof.
  intros Hwf He Hf Hall Ho Hlen.
  destruct (debounce_accumulates samples c)
    as (c1 & Hc1 & Hi1 & Hlen1 & Hss1 & Hf1); try done; [lia|].
  exists c1. eexists. split; [exact Hc1|]. split; [lia|].
  rewrite check_trigger; try done.
  - unfold direction.
    by rewrite (under_target_same_settings c c1).
  - destruct Hss1 as (_ & -> & _). done.
  - by rewrite (out_of_range_same_settings c c1).
  - lia.
Qed.

(** The samples counted while the array has room are recorded in the
    entries from the counter on; the other entries are left alone. *)
Lemma debounce_fills (samples : list (bool * float)) :
  forall c : sensor_control,
  control_wf N c ->
  is_control_enabled c = true -> dose_in_flight c = false ->
  Forall (fun s => out_of_range s.1 c s.2 = true) samples ->
  check_index c + Z.of_nat (length samples) <= N ->
  exists c',
    control_check_samples N c samples
    = Some (c', replicate (length samples) NoAction)
    /\ forall j : nat,
         sensor_checks c' !! j
         = if decide (Z.to_nat (check_index c) <= j
                      < Z.to_nat (check_index c) + length samples)%nat
           then Some true else sensor_checks c !! j.
Proof.
  induction samples as [|[d v] rest IH]; intros c [Hi Hlen] He Hf Hall Hroom.
  - exists c. split; [done|]. intros j. simpl.
    destruct (decide _) as [Hj|Hj]; [lia|done].
  - apply Forall_cons in Hall as [Ho Hall]. simpl in Ho, Hroom.
    destruct (check_accumulate N d c v)
      as (c1 & Hc1 & Hi1 & Hs1 & _ & Hss1 & Hf1); try done; [lia|].
    assert (Z.of_nat (length (sensor_checks c1)) = N) as Hlen1
      by (by rewrite Hs1, length_insert).
    destruct (IH c1) as (c2 & Hc2 & Hl2); try done.
    + split; [lia|done].
    + destruct Hss1 as (_ & -> & _). done.
    + eapply Forall_impl; [exact Hall|]. intros [d' v'] Ho'. simpl in *.
      by rewrite (out_of_range_same_settings c c1).
    + lia.
    + exists c2. simpl. rewrite Hc1. simpl. rewrite Hc2. simpl.
      split; [done|]. intros j. rewrite Hl2, Hi1, Hs1.
      destruct (decide (j = Z.to_nat (check_index c))) as [->|Hne].
      * rewrite list_lookup_insert_eq by lia.
        destruct (decide _) as [H1|H1]; [lia|].
        destruct (decide _) as [H2|H2]; [done|lia].
      * rewrite list_lookup_insert_ne by done.
        destruct (decide _) as [H1|H1];
          destruct (decide _) as [H2|H2]; try done; lia.
Qed.

End Debounce.

(** ** The debounce threshold *)

(** C1, as the code has it: for an enabled control with [NUM_CHECKS = 5], a
    zero counter and no dose or wait in flight, consecutive calls with the
    same out-of-range reading return [NoAction] five times, filling the
    five entries of the array, and the triggering decision on the sixth
    call ([RequestRaise] for a reading that is not under the target); that
    call resets the counter to 0 and sets the active flag. *)
Theorem C1_trigger_after_num_checks_samples :
  forall (is_day : bool) (c : sensor_control) (v : float),
    control_wf 5 c ->
    is_control_enabled c = true ->
    dose_in_flight c = false ->
    check_index c = 0 ->
    out_of_range is_day c v = true ->
    exists c5 c6,
      control_check_samples 5 c (replicate 5 (is_day, v))
      = Some (c5, [NoAction; NoAction; NoAction; NoAction; NoAction])
      /\ check_index c5 = 5
      /\ sensor_checks c5 = replicate 5 true
      /\ control_check_sensor 5 is_day c5 v
         = Some (c6, if control_is_under_target is_day c v
                     then RequestLower else RequestRaise)
      /\ check_index c6 = 0
      /\ is_control_active c6 = true.
Proof.
  intros is_day c v Hwf He Hf Hi Ho.
  assert (Forall (fun s => out_of_range s.1 c s.2 = true)
            (replicate 5 (is_day, v))) as Hall
    by (apply Forall_replicate; done).
  destruct (debounce_triggers 5 (replicate 5 (is_day, v)) is_day v c)
    as (c5 & c6 & H5 & Hi5 & H6 & Hi6 & Ha6); try done.
  { rewrite Hi. done. }
  destruct (debounce_fills 5 (replicate 5 (is_day, v)) c)
    as (c5' & H5' & Hl); try done.
  { rewrite Hi. done. }
  rewrite H5 in H5'. injection H5' as <-.
  assert (sensor_checks c5 = replicate 5 true) as Hs5.
  { apply list_eq. intros j. rewrite Hl, Hi.
    destruct Hwf as [_ Hlen].
    destruct (decide _) as [Hj|Hj]; simpl in Hj.
    - symmetry. apply lookup_replicate_2. lia.
    - rewrite !lookup_ge_None_2; [done| |].
      + rewrite length_replicate. lia.
      + lia. }
  exists c5, c6. repeat apply conj; done.
Qed.

Lemma C1_trigger_after_num_checks_samples_witness :
  exists c5 c6,
    control_check_samples 5 example_control
      (replicate 5 (true, Float32.of_int 8))
    = Some (c5, [NoAction; NoAction; NoAction; NoAction; NoAction])
    /\ check_index c5 = 5
    /\ sensor_checks c5 = replicate 5 true
    /\ control_check_sensor 5 true c5 (Float32.of_int 8)
       = Some (c6, if control_is_under_target true example_control
                        (Float32.of_int 8)
                   then RequestLower else RequestRaise)
    /\ check_index c6 = 0
    /\ is_control_active c6 = true.
Proof.
  apply (C1_trigger_after_num_checks_samples true example_control
           (Float32.of_int 8)).
  - split; [vm_compute; split; discriminate | reflexivity].
  - reflexivity.
  - reflexivity.
  - reflexivity.
  - vm_compute. reflexivity.
Defined.

(** C1 as stated fails on the example of the design document (margin 1.0,
    target 6.0, samples of 8.0): the fifth call still returns [NoAction],
    the counter stands at 5 and the active flag is clear. *)
Lemma C1_fifth_call_does_not_trigger :
  ~ (exists c',
       control_check_samples 5 example_control
         (replicate 5 (true, Float32.of_int 8))
       = Some (c', [NoAction; NoAction; NoAction; NoAction; RequestRaise])
       /\ check_index c' = 0
       /\ is_control_active c' = true).
Proof.
  intros (c' & Hrun & _). vm_compute in Hrun. discriminate Hrun.
Qed.

(** ** The active flag of a control that is not a doser *)

(** C2, as the code has it: for an enabled control that is not a doser,
    after a call of [control_check_sensor] the active flag is clear exactly
    when the call returned [NoAction]; the call that returns a triggering
    decision (array full, reading out of range) leaves the flag set, and
    the next call clears it. *)
Theorem C2_non_doser_active_iff_triggered :
  forall (N : Z) (is_day : bool) (c : sensor_control) (v : float),
    control_wf N c ->
    is_control_enabled c = true ->
    is_doser c = false ->
    exists c' r,
      control_check_sensor N is_day c v = Some (c', r)
      /\ is_control_active c' = negb (r =? NoAction)
      /\ (r = NoAction
          \/ (r = direction is_day c v
              /\ check_index c = N /\ out_of_range is_day c v = true)).
Proof.
  intros N is_day c v [Hi Hlen] He Hd.
  assert (dose_in_flight c = false) as Hf.
  { unfold dose_in_flight. rewrite Hd. simpl. apply andb_false_r. }
  destruct (out_of_range is_day c v) eqn:Ho.
  - destruct (decide (check_index c = N)) as [Hfull|Hroom].
    + eexists _, _. split; [by apply check_trigger|].
      split; [|by right].
      unfold direction.
      by destruct (control_is_under_target is_day c v).
    + destruct (check_accumulate N is_day c v)
        as (c' & Hc' & _ & _ & Ha' & _); try done; [lia|].
      exists c', NoAction. split; [done|]. split; [|by left].
      by rewrite Ha', Hd.
  - destruct (check_in_range N is_day c v)
      as (c' & Hc' & _ & _ & Ha' & _); try done; [lia|].
    exists c', NoAction. split; [done|]. split; [|by left].
    by rewrite Ha', Hd.
Qed.

Lemma C2_non_doser_active_iff_triggered_witness :
  exists c' r,
    control_check_sensor 5 true example_control (Float32.of_int 8)
    = Some (c', r)
    /\ is_control_active c' = negb (r =? NoAction)
    /\ (r = NoAction
        \/ (r = direction true example_control (Float32.of_int 8)
            /\ check_index example_control = 5
            /\ out_of_range true example_control (Float32.of_int 8) = true)).
Proof.
  apply (C2_non_doser_active_iff_triggered 5 true example_control
           (Float32.of_int 8)).
  - split; [vm_compute; split; discriminate | reflexivity].
  - reflexivity.
  - reflexivity.
Defined.

(** C2 as stated fails: on the example control after five samples of 8.0
    (array full), a sixth sample of 8.0 returns [RequestRaise] and the
    active flag is set when the call returns. *)
Lemma C2_non_doser_active_after_trigger :
  ~ (forall (is_day : bool) (c c' : sensor_control) (v : float) (r : Z),
       is_doser c = false ->
       control_check_sensor 5 is_day c v = Some (c', r) ->
       is_control_active c' = false).
Proof.
  intros H.
  specialize (H true
                (set_check_index 5
                   (set_sensor_checks (replicate 5 true) example_control))
                (set_is_control_active true example_control)
                (Float32.of_int 8) RequestRaise eq_refl).
  discriminate H. vm_compute. reflexivity.
Qed.

(** ** Guards of the sample evaluation *)

(** C3: for an enabled doser that is active, while its dose timer or its
    wait timer is active, [control_check_sensor] returns [NoAction] for
    every reading and leaves the control as it was. *)
Theorem C3_doser_in_flight_ignores_samples :
  forall (N : Z) (is_day : bool) (c : sensor_control) (v : float),
    is_control_enabled c = true ->
    is_doser c = true ->
    is_control_active c = true ->
    active (dose_timer c) || active (wait_timer c) = true ->
    control_check_sensor N is_day c v = Some (c, NoAction).
Proof.
  intros N is_day c v He Hd Ha Ht. apply check_in_flight; [done|].
  unfold dose_in_flight. by rewrite Ha, Hd, Ht.
Qed.

Lemma C3_doser_in_flight_ignores_samples_witness :
  control_check_sensor 5 true
    (control_start_dose_timer 0 (set_is_control_active true example_doser))
    (Float32.of_int 8)
  = Some (control_start_dose_timer 0
            (set_is_control_active true example_doser), NoAction).
Proof.
  apply (C3_doser_in_flight_ignores_samples 5 true
           (control_start_dose_timer 0
              (set_is_control_active true example_doser))
           (Float32.of_int 8)); reflexivity.
Defined.

(** C5: on a control whose enabled flag is clear every call of
    [control_check_sensor] returns [NoAction] and changes no field, so any
    run of calls leaves the control as it was; [control_disable] clears the
    flag and is idempotent. *)
Theorem C5_disabled_control_is_frozen :
  forall (N : Z) (c : sensor_control),
    (is_control_enabled c = false ->
     (forall is_day v,
        control_check_sensor N is_day c v = Some (c, NoAction))
     /\ (forall samples,
           control_check_samples N c samples
           = Some (c, replicate (length samples) NoAction)))
    /\ is_control_enabled (control_disable N c) = false
    /\ control_disable N (control_disable N c) = control_disable N c.
Proof.
  intros N c. split; [|split].
  - intros He. split.
    + intros is_day v. by apply check_disabled.
    + intros samples. induction samples as [|[d v] rest IH]; simpl; [done|].
      rewrite check_disabled by done. simpl. by rewrite IH.
  - done.
  - destruct c. unfold control_disable, control_reset_checks. simpl.
    by rewrite reset_loop_idempotent.
Qed.

Lemma C5_disabled_control_is_frozen_witness :
  (forall is_day v,
     control_check_sensor 5 is_day (control_disable 5 example_doser) v
     = Some (control_disable 5 example_doser, NoAction))
  /\ (forall samples,
        control_check_samples 5 (control_disable 5 example_doser) samples
        = Some (control_disable 5 example_doser,
                replicate (length samples) NoAction)).
Proof.
  apply (proj1 (C5_disabled_control_is_frozen 5
                  (control_disable 5 example_doser))).
  reflexivity.
Defined.

(** ** Direction of the decision *)

(** C6: out-of-range samples are counted whatever their direction.  From a
    counter at [k], [NUM_CHECKS - k] out-of-range samples, under or over
    the target in any order, fill the array without a decision, and the
    next out-of-range sample triggers; the decision is [RequestLower] when
    that last sample is under the target and [RequestRaise] otherwise,
    whatever the directions of the samples before it. *)
Theorem C6_direction_of_last_sample :
  forall (N : Z) (c : sensor_control) (samples : list (bool * float))
         (is_day : bool) (v : float),
    control_wf N c ->
    is_control_enabled c = true ->
    dose_in_flight c = false ->
    Forall (fun s => out_of_range s.1 c s.2 = true) samples ->
    Z.of_nat (length samples) = N - check_index c ->
    out_of_range is_day c v = true ->
    exists c',
      control_check_samples N c (samples ++ [(is_day, v)])
      = Some (c', replicate (length samples) NoAction
                  ++ [if control_is_under_target is_day c v
                      then RequestLower else RequestRaise])
      /\ check_index c' = 0
      /\ is_control_active c' = true.
Proof.
  intros N c samples is_day v Hwf He Hf Hall Hlen Ho.
  destruct (debounce_triggers N samples is_day v c)
    as (c1 & c2 & H1 & _ & H2 & Hi2 & Ha2); try done.
  exists c2. split; [|done].
  rewrite check_samples_app, H1. simpl. rewrite H2. done.
Qed.

Lemma C6_direction_of_last_sample_witness :
  exists c',
    control_check_samples 5 example_control
      ([(true, Float32.of_int 4); (true, Float32.of_int 8);
        (true, Float32.of_int 4); (true, Float32.of_int 8);
        (true, Float32.of_int 8)] ++ [(true, Float32.of_int 4)])
    = Some (c', replicate 5 NoAction
                ++ [if control_is_under_target true example_control
                         (Float32.of_int 4)
                    then RequestLower else RequestRaise])
    /\ check_index c' = 0
    /\ is_control_active c' = true.
Proof.
  apply (C6_direction_of_last_sample 5 example_control
           [(true, Float32.of_int 4); (true, Float32.of_int 8);
            (true, Float32.of_int 4); (true, Float32.of_int 8);
            (true, Float32.of_int 8)] true (Float32.of_int 4)).
  - split; [vm_compute; split; discriminate | reflexivity].
  - reflexivity.
  - reflexivity.
  - repeat constructor.
  - reflexivity.
  - vm_compute. reflexivity.
Defined.

(** ** Binary32 facts *)

Section Float32Facts.
Import Float32.

Lemma digits2_shift23 (m : positive) :
  Zpos (digits2_pos (m * 8388608)) = Zpos (digits2_pos m) + 23.
Proof.
  rewrite Pos.mul_comm. simpl.
  rewrite Pos.mul_1_l, !Pos2Z.inj_succ. lia.
Qed.

Lemma shr_shift23 (m : positive) (e : Z) :
  shr (Build_shr_record (Zpos (m * 8388608)) false false) e 23
  = (Build_shr_record (Zpos m) false false, e + 23).
Proof.
  rewrite Pos.mul_comm. reflexivity.
Qed.

(** Multiplying by [1.0f] is exact. *)
Lemma mul_one_r (x : float) : valid x = true -> mul x one = x.
Proof.
  destruct x as [s|s| |s m e]; intros Hv; simpl.
  - by rewrite xorb_false_r.
  - by rewrite xorb_false_r.
  - done.
  - unfold valid, valid_binary, bounded, canonical_mantissa in Hv.
    apply andb_prop in Hv as [Hc He].
    apply Z.eqb_eq in Hc.
    unfold mul, one, SFmul, binary_round_aux, shr_fexp.
    unfold Zdigits2 at 1. rewrite digits2_shift23.
    replace (Zpos (digits2_pos m) + 23 + (e + -23))
      with (Zpos (digits2_pos m) + e) by lia.
    rewrite Hc.
    replace (e - (e + -23)) with 23 by lia.
    unfold shr_record_of_loc at 1. rewrite shr_shift23.
    cbn [shr_m loc_of_shr_record round_nearest_even].
    replace (e + -23 + 23) with e by lia.
    unfold Zdigits2. rewrite Hc, Z.sub_diag.
    cbn [shr shr_record_of_loc shr_m].
    rewrite He. by rewrite xorb_false_r.
Qed.

End Float32Facts.

(** ** Initialisation *)

(** C9, as the code has it: [init_sensor_control] stores the settings,
    clears the debounce counter and the [NUM_CHECKS] entries of the checks
    array and clears the active flag (and the doser flag); it writes
    neither timer, so both keep the state they had. *)
Theorem C9_init_clears_counter_checks_and_active :
  forall (N : Z) (c : sensor_control) (name_in : string) (enabled_in : bool)
         (target_in margin_in night_in : float) (day_night_in : bool),
    let c' := init_sensor_control N c name_in enabled_in target_in margin_in
                night_in day_night_in in
    check_index c' = 0
    /\ length (sensor_checks c') = length (sensor_checks c)
    /\ Forall (fun b => b = false) (take (Z.to_nat N) (sensor_checks c'))
    /\ is_control_active c' = false
    /\ is_doser c' = false
    /\ is_control_enabled c' = enabled_in
    /\ name c' = name_in
    /\ target_value c' = target_in
    /\ margin_error c' = margin_in
    /\ night_target_value c' = night_in
    /\ is_day_night_active c' = day_night_in
    /\ dose_timer c' = dose_timer c
    /\ wait_timer c' = wait_timer c.
Proof.
  intros N c name_in enabled_in target_in margin_in night_in day_night_in c'.
  subst c'. unfold init_sensor_control.
  split; [done|]. split; [apply reset_loop_length|].
  split; [apply reset_loop_cleared|]. done.
Qed.

(** C9 as stated fails on the timers: a doser whose dose timer is running
    still has it running after [init_sensor_control]. *)
Lemma C9_init_leaves_timer_armed :
  ~ (forall (c : sensor_control) (name_in : string) (enabled_in : bool)
            (target_in margin_in night_in : float) (day_night_in : bool),
       let c' := init_sensor_control 5 c name_in enabled_in target_in
                   margin_in night_in day_night_in in
       active (dose_timer c') = false /\ active (wait_timer c') = false).
Proof.
  intros H.
  destruct (H (control_start_dose_timer 0 example_doser) "PH_CONTROL" true
              (Float32.of_int 6) (Float32.of_int 1) (Float32.of_int 6) false)
    as [Hd _].
  vm_compute in Hd. discriminate Hd.
Qed.

(** ** The wait timer *)

(** C4, as the code has it: [control_start_wait_timer] arms the wait timer
    for [wait_time - NUM_CHECKS * (SENSOR_MEASUREMENT_PERIOD / 1000)] and
    clamps nothing: the armed duration is the prescribed
    [max(0, ...)] exactly when the difference is not negative, and a
    negative difference is handed to the timer as it is.  No other field
    of the control changes. *)
Theorem C4_wait_timer_duration_not_clamped :
  forall (N P now : Z) (c : sensor_control),
    let d := Float32.sub (wait_time c) (Float32.of_int (N * (P ÷ 1000))) in
    let c' := control_start_wait_timer N P now c in
    c' = set_wait_timer (wait_timer c') c
    /\ active (wait_timer c') = true
    /\ start_time (wait_timer c') = now
    /\ duration (wait_timer c') = d
    /\ (duration (wait_timer c') = spec_wait_duration N P c
        <-> Float32.ltb d Float32.zero = false).
Proof.
  intros N P now c d c'. subst c'. unfold control_start_wait_timer.
  fold d. repeat split; unfold spec_wait_duration; fold d; simpl.
  - intros Heq. destruct (Float32.ltb d Float32.zero) eqn:Hlt; [|done].
    rewrite Heq in Hlt. discriminate Hlt.
  - by intros ->.
Qed.

(** C4 as stated fails: with [wait_time = 30], [NUM_CHECKS = 5] and a
    sample period of 10000 ms the timer is armed for -20 seconds, not for
    [max(0, -20) = 0]. *)
Lemma C4_negative_wait_duration :
  duration (wait_timer (control_start_wait_timer 5 10000 0 example_doser))
  = Float32.of_int (-20)
  /\ duration (wait_timer (control_start_wait_timer 5 10000 0 example_doser))
     <> spec_wait_duration 5 10000 example_doser.
Proof.
  split; [vm_compute; reflexivity|]. vm_compute. discriminate.
Qed.

(** ** The dose timer *)

Lemma check_sensor_same_settings (N : Z) d (c c' : sensor_control) v r :
  control_check_sensor N d c v = Some (c', r) -> same_settings c c'.
Proof.
  unfold control_check_sensor, control_add_check, check_epilogue.
  intros H.
  repeat (case_match; simplify_eq/=); repeat split.
Qed.

Lemma do_call_dose_fields (N P : Z) (k : control_call)
    (c c' : sensor_control) :
  do_call N P k c = Some c' ->
  dose_time c' = dose_time c /\ dose_percentage c' = dose_percentage c.
Proof.
  destruct k as [| |d v|now|now]; simpl; intros H; simplify_eq; try done.
  destruct (control_check_sensor N d c v) as [[c1 r]|] eqn:Hc;
    simplify_eq/=.
  apply check_sensor_same_settings in Hc.
  destruct Hc as (_ & _ & _ & _ & _ & _ & _ & -> & _ & -> & _). done.
Qed.

Lemma do_calls_dose_fields (N P : Z) (ks : list control_call) :
  forall c c' : sensor_control,
  do_calls N P ks c = Some c' ->
  dose_time c' = dose_time c /\ dose_percentage c' = dose_percentage c.
Proof.
  induction ks as [|k ks IH]; intros c c' H; simpl in H.
  - by simplify_eq.
  - destruct (do_call N P k c) as [c1|] eqn:Hk; simplify_eq/=.
    apply do_call_dose_fields in Hk as [<- <-]. by apply IH.
Qed.

(** C10: [init_doser_control] sets the dose percentage to 1.0; as long as
    [control_set_dose_percentage] is not called, whatever other calls are
    made, [control_get_dose_time] returns the configured [dose_time] and
    [control_start_dose_timer] arms the dose timer for that full
    duration. *)
Theorem C10_full_dose_by_default :
  forall (N P now : Z) (c c' : sensor_control) (dose_time_in wait_time_in : float)
         (ks : list control_call),
    Float32.valid dose_time_in = true ->
    do_calls N P ks (init_doser_control c dose_time_in wait_time_in)
    = Some c' ->
    dose_percentage (init_doser_control c dose_time_in wait_time_in)
    = Float32.one
    /\ control_get_dose_time c' = dose_time_in
    /\ dose_timer (control_start_dose_timer now c')
       = {| active := true; start_time := now; duration := dose_time_in |}.
Proof.
  intros N P now c c' dt wt ks Hv Hks.
  apply do_calls_dose_fields in Hks as [Hdt Hdp].
  assert (control_get_dose_time c' = dt) as Hget.
  { unfold control_get_dose_time. rewrite Hdt, Hdp. simpl.
    by apply mul_one_r. }
  split; [done|]. split; [done|].
  unfold control_start_dose_timer. simpl. unfold enable_timer.
  by rewrite Hget.
Qed.

Lemma C10_full_dose_by_default_witness :
  dose_percentage
    (init_doser_control example_control (Float32.of_int 10)
       (Float32.of_int 30))
  = Float32.one
  /\ control_get_dose_time
       (control_disable 5
          (control_start_wait_timer 5 10000 7
             (control_start_dose_timer 3
                (set_check_index 1
                   (set_sensor_checks [true; false; false; false; false]
                      example_doser)))))
     = Float32.of_int 10
  /\ dose_timer
       (control_start_dose_timer 9
          (control_disable 5
             (control_start_wait_timer 5 10000 7
                (control_start_dose_timer 3
                   (set_check_index 1
                      (set_sensor_checks [true; false; false; false; false]
                         example_doser))))))
     = {| active := true; start_time := 9; duration := Float32.of_int 10 |}.
Proof.
  apply (C10_full_dose_by_default 5 10000 9 example_control _
           (Float32.of_int 10) (Float32.of_int 30)
           [call_enable; call_check_sensor true (Float32.of_int 8);
            call_start_dose_timer 3; call_start_wait_timer 7; call_disable]).
  - vm_compute. reflexivity.
  - vm_compute. reflexivity.
Defined.

(** ** The grow cycle *)

(** Runs a grow-manager computation on a state given by its fields. *)
Ltac run_grow :=
  cbv [exec start_grow_cycle stop_grow_cycle settings_received
       push_grow_status push_grow_settings_status suspend_tasks resume_tasks
       when mbind mret GM_bind GM_ret
       GrowOps.emit GrowOps.set_is_settings_received
       GrowOps.set_is_grow_active GrowOps.get_is_settings_received
       GrowOps.get_is_grow_active GrowOps.nvs_store_uint8
       GrowOps.get_is_ph_activated GrowOps.get_is_ec_activated
       GrowOps.set_is_ph_activated GrowOps.set_is_ec_activated
       is_settings_received is_grow_active nvs is_ph_activated
       is_ec_activated calls fst snd negb Z.b2z].

Section GrowManagerFacts.

Variable GROW_ACTIVE_KEY : string.

Lemma split_calls_ordered (l1 l2 : list call) :
  Forall (fun k => is_hibernate k = false) l1 ->
  Forall (fun k => is_suspend k = false) l2 ->
  suspends_precede_hibernates (l1 ++ l2).
Proof.
  intros H1 H2 i j a b Hi Hj Ha Hb.
  apply lookup_app_Some in Hi as [Hi|[Hge Hi]].
  - apply lookup_app_Some in Hj as [Hj|[Hge Hj]].
    + pose proof (Forall_lookup_1 _ _ _ _ H1 Hj) as Hn. simpl in Hn.
      congruence.
    + apply lookup_lt_Some in Hi. lia.
  - pose proof (Forall_lookup_1 _ _ _ _ H2 Hi) as Hn. simpl in Hn.
    congruence.
Qed.

Lemma all_tasks_complete (t : task) : t ∈ all_tasks.
Proof. apply list_elem_of_In. destruct t; simpl; tauto. Qed.

(** The calls [stop_grow_cycle] issues, given the activation flags of the
    two probes on entry. *)
Lemma stop_grow_cycle_calls (s : grow_state) :
  calls (exec (stop_grow_cycle GROW_ACTIVE_KEY) s)
  = calls s
    ++ ([nvs_commit_data GROW_ACTIVE_KEY 0]
        ++ (vTaskSuspend <$> all_tasks) ++ [vTaskDelay 4000])
    ++ ((if is_ph_activated s then [hibernate_ph] else [])
        ++ (if is_ec_activated s then [hibernate_ec] else [])).
Proof.
  destruct s as [sr ga m ph ec cs].
  destruct ph, ec; run_grow; rewrite <- ?app_assoc; reflexivity.
Qed.

End GrowManagerFacts.

(** C7: when the settings-received flag is clear, [start_grow_cycle]
    returns with the state as it was: [is_grow_active] is unchanged,
    nothing is written to NVS and no call, [vTaskResume] included, is
    issued. *)
Theorem C7_start_without_settings_is_noop :
  forall (GROW_ACTIVE_KEY : string) (s : grow_state),
    is_settings_received s = false ->
    let s' := exec (start_grow_cycle GROW_ACTIVE_KEY) s in
    s' = s
    /\ is_grow_active s' = is_grow_active s
    /\ nvs s' = nvs s
    /\ calls s' = calls s.
Proof.
  intros K s Hs s'.
  assert (s' = s) as ->; [|done].
  subst s'. unfold exec, start_grow_cycle, mbind, GM_bind.
  unfold GrowOps.get_is_settings_received. by rewrite Hs.
Qed.

Lemma C7_start_without_settings_is_noop_witness :
  let s' := exec (start_grow_cycle "grow_active") example_grow_state in
  s' = example_grow_state
  /\ is_grow_active s' = is_grow_active example_grow_state
  /\ nvs s' = nvs example_grow_state
  /\ calls s' = calls example_grow_state.
Proof.
  apply (C7_start_without_settings_is_noop "grow_active" example_grow_state).
  reflexivity.
Defined.

(** C8: [stop_grow_cycle] clears [is_grow_active] and stores it in NVS,
    suspends each of the seven tasks, waits, and only then hibernates the
    pH probe if its activated flag was set and the EC probe if its flag was
    set; every suspension comes strictly before every hibernation, and both
    flags are clear when it returns. *)
Theorem C8_stop_suspends_before_hibernating :
  forall (GROW_ACTIVE_KEY : string) (s : grow_state),
    let s' := exec (stop_grow_cycle GROW_ACTIVE_KEY) s in
    is_grow_active s' = false
    /\ nvs s' = <[GROW_ACTIVE_KEY := 0]> (nvs s)
    /\ is_ph_activated s' = false
    /\ is_ec_activated s' = false
    /\ exists issued : list call,
         calls s' = calls s ++ issued
         /\ issued
            = [nvs_commit_data GROW_ACTIVE_KEY 0]
              ++ (vTaskSuspend <$> all_tasks)
              ++ [vTaskDelay 4000]
              ++ (if is_ph_activated s then [hibernate_ph] else [])
              ++ (if is_ec_activated s then [hibernate_ec] else [])
         /\ (forall t : task, vTaskSuspend t ∈ issued)
         /\ suspends_precede_hibernates issued
         /\ (hibernate_ph ∈ issued <-> is_ph_activated s = true)
         /\ (hibernate_ec ∈ issued <-> is_ec_activated s = true).
Proof.
  intros K s s'.
  split; [by destruct s as [sr ga m [] [] cs]; run_grow|].
  split; [by destruct s as [sr ga m [] [] cs]; run_grow|].
  split; [by destruct s as [sr ga m [] [] cs]; run_grow|].
  split; [by destruct s as [sr ga m [] [] cs]; run_grow|].
  eexists. split; [apply stop_grow_cycle_calls|].
  split; [by rewrite <- !app_assoc|].
  split; [|split; [|split]].
  - intros t. apply elem_of_app. left. apply elem_of_app. right.
    apply elem_of_app. left. apply list_elem_of_fmap_2, all_tasks_complete.
  - apply split_calls_ordered.
    + repeat constructor.
    + destruct (is_ph_activated s), (is_ec_activated s); repeat constructor.
  - destruct (is_ph_activated s), (is_ec_activated s); simpl;
      rewrite !list_elem_of_In; simpl; intuition congruence.
  - destruct (is_ph_activated s), (is_ec_activated s); simpl;
      rewrite !list_elem_of_In; simpl; intuition congruence.
Qed.

(** * Further properties of the sensor control *)

Section SensorControlRuns.

Variable N : Z.

Lemma direction_is_decision d (c : sensor_control) v :
  is_decision (direction d c v).
Proof.
  unfold direction, is_decision.
  destruct (control_is_under_target d c v); auto.
Qed.

(** What one evaluation does to a well-formed control. *)
Lemma check_sensor_step d (c : sensor_control) v :
  control_wf N c ->
  exists c' r,
    control_check_sensor N d c v = Some (c', r)
    /\ control_wf N c' /\ same_settings c c' /\ is_decision r.
Proof.
  intros Hwf.
  destruct (check_sensor_wf N d c v Hwf) as (c' & r & Hc & Hwf').
  exists c', r. split; [done|]. split; [done|].
  split; [by apply (check_sensor_same_settings N d c c' v r)|].
  pose proof Hwf as [Hi Hlen].
  destruct (is_control_enabled c) eqn:He;
    [|rewrite check_disabled in Hc by done; simplify_eq; by left].
  destruct (dose_in_flight c) eqn:Hf;
    [rewrite check_in_flight in Hc by done; simplify_eq; by left|].
  destruct (out_of_range d c v) eqn:Ho.
  - destruct (decide (check_index c = N)) as [Hfull|Hroom].
    + rewrite check_trigger in Hc by done. simplify_eq.
      apply direction_is_decision.
    + destruct (check_accumulate N d c v) as (c1 & Hc1 & _); try done; [lia|].
      rewrite Hc1 in Hc. simplify_eq. by left.
  - destruct (check_in_range N d c v) as (c1 & Hc1 & _); try done; [lia|].
    rewrite Hc1 in Hc. simplify_eq. by left.
Qed.

(** A control that is blocked by a running timer stays as it is over any
    run of samples. *)
Lemma in_flight_run (c : sensor_control) (samples : list (bool * float)) :
  is_control_enabled c = true -> dose_in_flight c = true ->
  control_check_samples N c samples
  = Some (c, replicate (length samples) NoAction).
Proof.
  intros He Hf. induction samples as [|[d v] rest IH]; simpl; [done|].
  rewrite check_in_flight by done. simpl. by rewrite IH.
Qed.

(** One full debounce cycle: the array fills, the next out-of-range sample
    triggers and leaves the control reset with its active flag set. *)
Lemma debounce_cycle (samples : list (bool * float)) d v
    (c : sensor_control) :
  control_wf N c ->
  is_control_enabled c = true -> dose_in_flight c = false ->
  Forall (fun s => out_of_range s.1 c s.2 = true) samples ->
  out_of_range d c v = true ->
  Z.of_nat (length samples) = N - check_index c ->
  exists c1,
    control_check_samples N c (samples ++ [(d, v)])
    = Some (set_is_control_active true (control_reset_checks N c1),
            replicate (length samples) NoAction ++ [direction d c v])
    /\ same_settings c c1
    /\ Z.of_nat (length (sensor_checks c1)) = N.
Proof.
  intros Hwf He Hf Hall Ho Hlen.
  destruct (debounce_accumulates N samples c)
    as (c1 & Hc1 & Hi1 & Hlen1 & Hss1 & Hf1); try done; [lia|].
  exists c1. split; [|done].
  rewrite check_samples_app, Hc1. simpl.
  rewrite check_trigger; try done.
  - simpl. unfold direction.
    by rewrite (under_target_same_settings c c1).
  - destruct Hss1 as (_ & -> & _). done.
  - by rewrite (out_of_range_same_settings c c1).
  - lia.
Qed.

End SensorControlRuns.

(** X1: on a well-formed control (counter within the array, array of
    [NUM_CHECKS] entries) any run of samples is evaluated without a write
    outside the array; the control stays well formed, one decision in
    {-1, 0, 1} is returned per sample, and no setting or timer is written:
    only the active flag, the counter and the checks array change. *)
Theorem X1_check_samples_keep_control_well_formed :
  forall (N : Z) (samples : list (bool * float)) (c : sensor_control),
    control_wf N c ->
    exists c' rs,
      control_check_samples N c samples = Some (c', rs)
      /\ control_wf N c'
      /\ same_settings c c'
      /\ length rs = length samples
      /\ Forall is_decision rs.
Proof.
  intros N samples.
  induction samples as [|[d v] rest IH]; intros c Hwf; simpl.
  - exists c, []. split; [done|]. split; [done|].
    split; [apply same_settings_refl|]. split; [done|]. constructor.
  - destruct (check_sensor_step N d c v Hwf)
      as (c1 & r & Hc1 & Hwf1 & Hss1 & Hr).
    destruct (IH c1 Hwf1) as (c2 & rs & Hc2 & Hwf2 & Hss2 & Hlen & Hrs).
    exists c2, (r :: rs). rewrite Hc1. simpl. rewrite Hc2. simpl.
    split; [done|]. split; [done|].
    split; [by apply (same_settings_trans c c1 c2)|].
    split; [by rewrite Hlen|]. by constructor.
Qed.

Lemma X1_check_samples_keep_control_well_formed_witness :
  exists c' rs,
    control_check_samples 5 example_control
      [(true, Float32.of_int 8); (false, Float32.of_int 6)]
    = Some (c', rs)
    /\ control_wf 5 c'
    /\ same_settings example_control c'
    /\ length rs = 2%nat
    /\ Forall is_decision rs.
Proof.
  apply (X1_check_samples_keep_control_well_formed 5
           [(true, Float32.of_int 8); (false, Float32.of_int 6)]
           example_control).
  split; [vm_compute; split; discriminate | reflexivity].
Defined.

(** X2: [control_check_sensor] requests an action only from an enabled
    control that no running dose or wait blocks, whose checks array is full
    ([check_index = NUM_CHECKS]) and for a reading out of range; the
    request is then the direction of that reading, the counter is back at
    0 and the active flag is set. *)
Theorem X2_action_only_when_array_full :
  forall (N : Z) (is_day : bool) (c c' : sensor_control) (v : float) (r : Z),
    control_check_sensor N is_day c v = Some (c', r) ->
    r <> NoAction ->
    is_control_enabled c = true
    /\ dose_in_flight c = false
    /\ check_index c = N
    /\ out_of_range is_day c v = true
    /\ r = direction is_day c v
    /\ c' = set_is_control_active true (control_reset_checks N c).
Proof.
  intros N d c c' v r Hc Hr.
  destruct (is_control_enabled c) eqn:He;
    [|rewrite check_disabled in Hc by done; by simplify_eq].
  destruct (dose_in_flight c) eqn:Hf;
    [rewrite check_in_flight in Hc by done; by simplify_eq|].
  rewrite check_body in Hc by done.
  destruct (out_of_range d c v) eqn:Ho.
  - destruct (decide (check_index c = N)) as [Hfull|Hroom].
    + rewrite add_check_full in Hc by done. by simplify_eq/=.
    + unfold control_add_check in Hc.
      destruct (Z.eqb_spec (check_index c) N) as [?|_]; [done|].
      unfold check_epilogue in Hc.
      destruct (_ && _); by simplify_eq/=.
  - unfold check_epilogue in Hc.
    destruct (0 <? check_index c); by simplify_eq/=.
Qed.

Lemma X2_action_only_when_array_full_witness :
  is_control_enabled
    (set_check_index 5 (set_sensor_checks (replicate 5 true) example_control))
  = true
  /\ dose_in_flight
       (set_check_index 5
          (set_sensor_checks (replicate 5 true) example_control)) = false
  /\ check_index
       (set_check_index 5
          (set_sensor_checks (replicate 5 true) example_control)) = 5
  /\ out_of_range true
       (set_check_index 5
          (set_sensor_checks (replicate 5 true) example_control))
       (Float32.of_int 8) = true
  /\ RequestRaise
     = direction true
         (set_check_index 5
            (set_sensor_checks (replicate 5 true) example_control))
         (Float32.of_int 8)
  /\ set_is_control_active true example_control
     = set_is_control_active true
         (control_reset_checks 5
            (set_check_index 5
               (set_sensor_checks (replicate 5 true) example_control))).
Proof.
  apply (X2_action_only_when_array_full 5 true
           (set_check_index 5
              (set_sensor_checks (replicate 5 true) example_control))
           (set_is_control_active true example_control)
           (Float32.of_int 8) RequestRaise).
  - vm_compute. reflexivity.
  - discriminate.
Defined.

(** X3: one in-range sample cancels a debounce in progress.  After any
    number of counted out-of-range samples (array not yet overrun), an
    in-range sample returns [NoAction] and puts the counter back to 0, so a
    request needs [NUM_CHECKS] further out-of-range samples in a row. *)
Theorem X3_in_range_sample_cancels_debounce :
  forall (N : Z) (c : sensor_control) (samples : list (bool * float))
         (is_day : bool) (v : float),
    control_wf N c ->
    is_control_enabled c = true ->
    dose_in_flight c = false ->
    Forall (fun s => out_of_range s.1 c s.2 = true) samples ->
    check_index c + Z.of_nat (length samples) <= N ->
    out_of_range is_day c v = false ->
    exists c',
      control_check_samples N c (samples ++ [(is_day, v)])
      = Some (c', replicate (length samples) NoAction ++ [NoAction])
      /\ check_index c' = 0
      /\ control_wf N c'.
Proof.
  intros N c samples d v Hwf He Hf Hall Hroom Ho.
  destruct (debounce_accumulates N samples c)
    as (c1 & Hc1 & Hi1 & Hlen1 & Hss1 & Hf1); try done.
  destruct (check_in_range N d c1 v)
    as (c2 & Hc2 & Hi2 & Hlen2 & _); try done.
  - destruct Hss1 as (_ & -> & _). done.
  - by rewrite (out_of_range_same_settings c c1).
  - destruct Hwf. lia.
  - exists c2. rewrite check_samples_app, Hc1. simpl. rewrite Hc2. simpl.
    split; [done|]. split; [done|].
    destruct Hwf. split; [lia|]. by rewrite Hlen2.
Qed.

Lemma X3_in_range_sample_cancels_debounce_witness :
  exists c',
    control_check_samples 5 example_control
      ([(true, Float32.of_int 8); (true, Float32.of_int 4);
        (true, Float32.of_int 8)] ++ [(true, Float32.of_int 6)])
    = Some (c', replicate 3 NoAction ++ [NoAction])
    /\ check_index c' = 0
    /\ control_wf 5 c'.
Proof.
  apply (X3_in_range_sample_cancels_debounce 5 example_control
           [(true, Float32.of_int 8); (true, Float32.of_int 4);
            (true, Float32.of_int 8)] true (Float32.of_int 6)).
  - split; [vm_compute; split; discriminate | reflexivity].
  - reflexivity.
  - reflexivity.
  - repeat constructor.
  - vm_compute. discriminate.
  - vm_compute. reflexivity.
Defined.

Lemma ltb_nan_l (x : float) : Float32.ltb S754_nan x = false.
Proof. done. Qed.

Lemma ltb_nan_r (x : float) : Float32.ltb x S754_nan = false.
Proof. by destruct x. Qed.

Lemma sub_nan_r (x : float) : Float32.sub x S754_nan = S754_nan.
Proof. by destruct x. Qed.

Lemma add_nan_r (x : float) : Float32.add x S754_nan = S754_nan.
Proof. by destruct x. Qed.

(** A NaN as reading, as selected target or as margin makes both
    comparisons false. *)
Lemma nan_in_range d (c : sensor_control) (v : float) :
  v = S754_nan \/ control_get_target_value d c = S754_nan
  \/ margin_error c = S754_nan ->
  out_of_range d c v = false.
Proof.
  unfold out_of_range, control_is_under_target, control_is_over_target,
    Float32.gtb.
  intros [->|[->| ->]].
  - by rewrite ltb_nan_l, ltb_nan_r.
  - change (Float32.sub S754_nan (margin_error c)) with S754_nan.
    change (Float32.add S754_nan (margin_error c)) with S754_nan.
    by rewrite ltb_nan_l, ltb_nan_r.
  - by rewrite sub_nan_r, add_nan_r, ltb_nan_l, ltb_nan_r.
Qed.

(** X4: a NaN never triggers.  When the reading, the selected target or
    the margin is a NaN, both comparisons are false and the sample counts
    as in range: [control_check_sensor] returns [NoAction], and when the
    sample is evaluated (control enabled, no dose or wait in flight) the
    debounce counter is put back to 0. *)
Theorem X4_nan_counts_as_in_range :
  forall (N : Z) (is_day : bool) (c : sensor_control) (v : float),
    control_wf N c ->
    v = S754_nan \/ control_get_target_value is_day c = S754_nan
    \/ margin_error c = S754_nan ->
    exists c',
      control_check_sensor N is_day c v = Some (c', NoAction)
      /\ (is_control_enabled c = true -> dose_in_flight c = false ->
          check_index c' = 0).
Proof.
  intros N d c v [Hi Hlen] Hnan.
  pose proof (nan_in_range d c v Hnan) as Ho.
  destruct (is_control_enabled c) eqn:He;
    [|exists c; by rewrite check_disabled].
  destruct (dose_in_flight c) eqn:Hf;
    [exists c; by rewrite check_in_flight|].
  destruct (check_in_range N d c v) as (c' & Hc' & Hi' & _); try done; [lia|].
  by exists c'.
Qed.

Lemma X4_nan_counts_as_in_range_witness :
  exists c',
    control_check_sensor 5 true
      (set_check_index 5
         (set_sensor_checks (replicate 5 true) example_control))
      S754_nan
    = Some (c', NoAction)
    /\ (is_control_enabled
          (set_check_index 5
             (set_sensor_checks (replicate 5 true) example_control)) = true ->
        dose_in_flight
          (set_check_index 5
             (set_sensor_checks (replicate 5 true) example_control)) = false ->
        check_index c' = 0).
Proof.
  apply (X4_nan_counts_as_in_range 5 true
           (set_check_index 5
              (set_sensor_checks (replicate 5 true) example_control))
           S754_nan).
  - split; [vm_compute; split; discriminate | reflexivity].
  - left. reflexivity.
Defined.

(** X5: once a doser has triggered and the client has armed the dose timer
    or the wait timer, every further sample is ignored: any run of samples
    returns [NoAction] throughout and leaves the control untouched, until
    the timer's active flag is cleared from outside. *)
Theorem X5_triggered_doser_ignores_samples_while_timer_runs :
  forall (N P now : Z) (is_day : bool) (c : sensor_control) (v : float)
         (samples : list (bool * float)),
    is_control_enabled c = true ->
    is_doser c = true ->
    dose_in_flight c = false ->
    check_index c = N ->
    out_of_range is_day c v = true ->
    exists c1,
      control_check_sensor N is_day c v = Some (c1, direction is_day c v)
      /\ control_check_samples N (control_start_dose_timer now c1) samples
         = Some (control_start_dose_timer now c1,
                 replicate (length samples) NoAction)
      /\ control_check_samples N (control_start_wait_timer N P now c1)
           samples
         = Some (control_start_wait_timer N P now c1,
                 replicate (length samples) NoAction).
Proof.
  intros N P now d c v samples He Hd Hf Hi Ho.
  eexists. split; [by apply check_trigger|].
  split; apply in_flight_run; try done.
  - unfold dose_in_flight. simpl. by rewrite Hd.
  - unfold dose_in_flight. simpl. rewrite Hd. simpl. apply orb_true_r.
Qed.

Lemma X5_triggered_doser_ignores_samples_while_timer_runs_witness :
  exists c1,
    control_check_sensor 5 true
      (set_check_index 5 (set_sensor_checks (replicate 5 true) example_doser))
      (Float32.of_int 8)
    = Some (c1,
            direction true
              (set_check_index 5
                 (set_sensor_checks (replicate 5 true) example_doser))
              (Float32.of_int 8))
    /\ control_check_samples 5 (control_start_dose_timer 0 c1)
         [(true, Float32.of_int 8); (true, Float32.of_int 6)]
       = Some (control_start_dose_timer 0 c1, replicate 2 NoAction)
    /\ control_check_samples 5 (control_start_wait_timer 5 10000 0 c1)
         [(true, Float32.of_int 8); (true, Float32.of_int 6)]
       = Some (control_start_wait_timer 5 10000 0 c1, replicate 2 NoAction).
Proof.
  apply (X5_triggered_doser_ignores_samples_while_timer_runs 5 10000 0 true
           (set_check_index 5
              (set_sensor_checks (replicate 5 true) example_doser))
           (Float32.of_int 8)
           [(true, Float32.of_int 8); (true, Float32.of_int 6)]).
  - reflexivity.
  - reflexivity.
  - reflexivity.
  - reflexivity.
  - vm_compute. reflexivity.
Defined.

(** A reset control is ready for a debounce cycle, whatever its history. *)
Lemma fresh_control_cycle (N : Z) (c0 : sensor_control)
    (samples : list (bool * float)) d v :
  0 <= N ->
  Z.of_nat (length (sensor_checks c0)) = N ->
  check_index c0 = 0 ->
  is_control_enabled c0 = true ->
  is_control_active c0 = false ->
  Forall (fun s => out_of_range s.1 c0 s.2 = true) samples ->
  Z.of_nat (length samples) = N ->
  out_of_range d c0 v = true ->
  exists c',
    control_check_samples N c0 (samples ++ [(d, v)])
    = Some (c', replicate (length samples) NoAction ++ [direction d c0 v])
    /\ check_index c' = 0
    /\ is_control_active c' = true.
Proof.
  intros HN Hlen Hi He Ha Hall Hn Ho.
  destruct (debounce_cycle N samples d v c0) as (c1 & Hc1 & _); try done.
  - split; [lia|done].
  - unfold dose_in_flight. by rewrite Ha.
  - lia.
  - eexists. split; [exact Hc1|]. done.
Qed.

(** X6: [control_disable] followed by [control_enable] restarts the control
    from scratch, whatever it was doing (mid-debounce or mid-dose): the
    counter is 0, the active flag and both timers' active flags are clear,
    and a request needs a full debounce again, [NUM_CHECKS] out-of-range
    samples without a decision and then one more. *)
Theorem X6_disable_enable_restarts_debounce :
  forall (N : Z) (c : sensor_control) (samples : list (bool * float))
         (is_day : bool) (v : float),
    0 <= N ->
    Z.of_nat (length (sensor_checks c)) = N ->
    let c0 := control_enable (control_disable N c) in
    Forall (fun s => out_of_range s.1 c0 s.2 = true) samples ->
    Z.of_nat (length samples) = N ->
    out_of_range is_day c0 v = true ->
    check_index c0 = 0
    /\ is_control_active c0 = false
    /\ active (dose_timer c0) = false
    /\ active (wait_timer c0) = false
    /\ exists c',
         control_check_samples N c0 (samples ++ [(is_day, v)])
         = Some (c', replicate (length samples) NoAction
                     ++ [direction is_day c0 v])
         /\ is_control_active c' = true.
Proof.
  intros N c samples d v HN Hlen c0 Hall Hn Ho.
  split; [done|]. split; [done|]. split; [done|]. split; [done|].
  destruct (fresh_control_cycle N c0 samples d v)
    as (c' & Hc' & _ & Ha'); try done.
  - rewrite <- Hlen. f_equal. apply reset_loop_length.
  - by exists c'.
Qed.

Lemma X6_disable_enable_restarts_debounce_witness :
  let c0 :=
    control_enable
      (control_disable 5
         (control_start_dose_timer 0
            (set_is_control_active true example_doser))) in
  check_index c0 = 0
  /\ is_control_active c0 = false
  /\ active (dose_timer c0) = false
  /\ active (wait_timer c0) = false
  /\ exists c',
       control_check_samples 5 c0
         (replicate 5 (true, Float32.of_int 8) ++ [(true, Float32.of_int 4)])
       = Some (c', replicate (length (replicate 5 (true, Float32.of_int 8)))
                     NoAction
                   ++ [direction true c0 (Float32.of_int 4)])
       /\ is_control_active c' = true.
Proof.
  apply (X6_disable_enable_restarts_debounce 5
           (control_start_dose_timer 0
              (set_is_control_active true example_doser))
           (replicate 5 (true, Float32.of_int 8)) true (Float32.of_int 4)).
  - lia.
  - reflexivity.
  - repeat constructor.
  - reflexivity.
  - vm_compute. reflexivity.
Defined.

Lemma timers_idle_not_in_flight (c : sensor_control) :
  timers_idle c = true -> dose_in_flight c = false.
Proof.
  unfold timers_idle, dose_in_flight. intros H.
  apply negb_true_iff in H. rewrite H. apply andb_false_r.
Qed.

Lemma replicate_blocks {A : Type} (k n : nat) (x : A) :
  replicate (k * S n) x = mjoin (replicate k (replicate n x ++ [x])).
Proof.
  induction k as [|k IH]; simpl; [done|].
  rewrite <- IH. rewrite <- replicate_S_end. simpl.
  by rewrite <- replicate_add.
Qed.

(** Under a reading that stays out of range, cycles repeat. *)
Lemma debounce_cycles (N : Z) d v (k : nat) :
  forall c : sensor_control,
  control_wf N c ->
  is_control_enabled c = true -> timers_idle c = true ->
  check_index c = 0 ->
  out_of_range d c v = true ->
  exists c',
    control_check_samples N c
      (mjoin (replicate k (replicate (Z.to_nat N) (d, v) ++ [(d, v)])))
    = Some (c', mjoin (replicate k (replicate (Z.to_nat N) NoAction
                                    ++ [direction d c v])))
    /\ check_index c' = 0
    /\ same_settings c c'.
Proof.
  induction k as [|k IH]; intros c Hwf He Ht Hi Ho; simpl.
  - exists c. split; [done|]. split; [done|]. apply same_settings_refl.
  - pose proof Hwf as [Hrange Hlen].
    destruct (debounce_cycle N (replicate (Z.to_nat N) (d, v)) d v c)
      as (c1 & Hc1 & Hss1 & Hlen1); try done.
    { by apply timers_idle_not_in_flight. }
    { by apply Forall_replicate. }
    { rewrite length_replicate. lia. }
    rewrite length_replicate in Hc1.
    set (c2 := set_is_control_active true (control_reset_checks N c1)) in *.
    assert (same_settings c c2) as Hss2.
    { apply (same_settings_trans c c1 c2); [done|]. repeat split. }
    destruct (IH c2) as (c3 & Hc3 & Hi3 & Hss3).
    + apply reset_checks_wf; [lia|done].
    + destruct Hss2 as (_ & -> & _). done.
    + unfold timers_idle in *.
      destruct Hss2 as (_ & _ & -> & _ & _ & _ & _ & _ & _ & _ & -> & ->).
      done.
    + done.
    + by rewrite (out_of_range_same_settings c c2).
    + exists c3. rewrite check_samples_app, Hc1. simpl. rewrite Hc3. simpl.
      split; [|split; [done|by apply (same_settings_trans c c2 c3)]].
      unfold direction.
      by rewrite (under_target_same_settings c c2).
Qed.

(** X7: under a reading that stays out of range, a control that no timer
    blocks (not a doser, or a doser whose timers are never armed) repeats
    the same cycle for ever: in any run of [k * (NUM_CHECKS + 1)] samples
    the decisions are [k] times [NUM_CHECKS] [NoAction] followed by the
    request, which therefore comes exactly every [NUM_CHECKS + 1]
    samples. *)
Theorem X7_request_every_num_checks_plus_one_samples :
  forall (N : Z) (is_day : bool) (v : float) (k : nat) (c : sensor_control),
    control_wf N c ->
    is_control_enabled c = true ->
    timers_idle c = true ->
    check_index c = 0 ->
    out_of_range is_day c v = true ->
    exists c',
      control_check_samples N c
        (replicate (k * S (Z.to_nat N)) (is_day, v))
      = Some (c', mjoin (replicate k (replicate (Z.to_nat N) NoAction
                                      ++ [direction is_day c v])))
      /\ check_index c' = 0.
Proof.
  intros N d v k c Hwf He Ht Hi Ho.
  destruct (debounce_cycles N d v k c) as (c' & Hc' & Hi' & _); try done.
  exists c'. rewrite replicate_blocks. done.
Qed.

Lemma X7_request_every_num_checks_plus_one_samples_witness :
  exists c',
    control_check_samples 5 example_control
      (replicate (3 * S (Z.to_nat 5)) (true, Float32.of_int 8))
    = Some (c', mjoin (replicate 3 (replicate (Z.to_nat 5) NoAction
                                    ++ [direction true example_control
                                          (Float32.of_int 8)])))
    /\ check_index c' = 0.
Proof.
  apply (X7_request_every_num_checks_plus_one_samples 5 true
           (Float32.of_int 8) 3 example_control).
  - split; [vm_compute; split; discriminate | reflexivity].
  - reflexivity.
  - reflexivity.
  - reflexivity.
  - vm_compute. reflexivity.
Defined.

Lemma init_doser_out_of_range d (c : sensor_control) dt wt v :
  out_of_range d (init_doser_control c dt wt) v = out_of_range d c v.
Proof. by destruct c. Qed.

Lemma init_doser_runtime (c : sensor_control) dt wt :
  check_index (init_doser_control c dt wt) = check_index c
  /\ sensor_checks (init_doser_control c dt wt) = sensor_checks c
  /\ is_control_enabled (init_doser_control c dt wt) = is_control_enabled c
  /\ is_control_active (init_doser_control c dt wt) = is_control_active c.
Proof. by destruct c. Qed.

Lemma init_doser_direction d (c : sensor_control) dt wt v :
  direction d (init_doser_control c dt wt) v = direction d c v.
Proof. by destruct c. Qed.

(** X8: an initialised control is ready whatever the structure held
    before, stale counter, active flag or running timers included.  After
    [init_sensor_control] with the control enabled, followed or not by
    [init_doser_control], [NUM_CHECKS] out-of-range samples return
    [NoAction] and the next one is answered by a request. *)
Theorem X8_initialised_control_is_ready :
  forall (N : Z) (c : sensor_control) (name_in : string)
         (target_in margin_in night_in dose_time_in wait_time_in : float)
         (day_night_in : bool) (samples : list (bool * float))
         (is_day : bool) (v : float),
    0 <= N ->
    Z.of_nat (length (sensor_checks c)) = N ->
    let c0 := init_sensor_control N c name_in true target_in margin_in
                night_in day_night_in in
    Forall (fun s => out_of_range s.1 c0 s.2 = true) samples ->
    Z.of_nat (length samples) = N ->
    out_of_range is_day c0 v = true ->
    forall c1,
      c1 = c0 \/ c1 = init_doser_control c0 dose_time_in wait_time_in ->
      exists c',
        control_check_samples N c1 (samples ++ [(is_day, v)])
        = Some (c', replicate (length samples) NoAction
                    ++ [direction is_day c0 v])
        /\ check_index c' = 0
        /\ is_control_active c' = true.
Proof.
  intros N c name_in t m nt dt wt dn samples d v HN Hlen c0 Hall Hn Ho c1 Hc1.
  assert (Z.of_nat (length (sensor_checks c0)) = N) as Hlen0.
  { rewrite <- Hlen. f_equal. apply reset_loop_length. }
  assert (check_index c0 = 0) as Hi0 by done.
  assert (is_control_enabled c0 = true) as He0 by done.
  assert (is_control_active c0 = false) as Ha0 by done.
  clearbody c0.
  destruct Hc1 as [->| ->].
  - by apply fresh_control_cycle.
  - pose proof (init_doser_runtime c0 dt wt) as (Hi1 & Hs1 & He1 & Ha1).
    pose proof (init_doser_direction d c0 dt wt v) as Hdir.
    pose proof (init_doser_out_of_range d c0 dt wt v) as Ho1.
    assert (Forall (fun s => out_of_range s.1
                               (init_doser_control c0 dt wt) s.2 = true)
              samples) as Hall1.
    { eapply Forall_impl; [exact Hall|]. intros [d' v'] Ho'.
      cbv beta in *. by rewrite init_doser_out_of_range. }
    generalize dependent (init_doser_control c0 dt wt). intros c1.
    intros Hi1 Hs1 He1 Ha1 Hdir Ho1 Hall1.
    rewrite <- Hdir.
    apply fresh_control_cycle; congruence.
Qed.

Lemma X8_initialised_control_is_ready_witness :
  let c0 :=
    init_sensor_control 5
      (control_start_dose_timer 0
         (set_check_index 3 (set_is_control_active true example_doser)))
      "PH_CONTROL" true (Float32.of_int 6) (Float32.of_int 1)
      (Float32.of_int 6) false in
  exists c',
    control_check_samples 5
      (init_doser_control c0 (Float32.of_int 10) (Float32.of_int 30))
      (replicate 5 (true, Float32.of_int 8) ++ [(true, Float32.of_int 8)])
    = Some (c', replicate (length (replicate 5 (true, Float32.of_int 8)))
                  NoAction
                ++ [direction true c0 (Float32.of_int 8)])
    /\ check_index c' = 0
    /\ is_control_active c' = true.
Proof.
  apply (X8_initialised_control_is_ready 5
           (control_start_dose_timer 0
              (set_check_index 3 (set_is_control_active true example_doser)))
           "PH_CONTROL" (Float32.of_int 6) (Float32.of_int 1)
           (Float32.of_int 6) (Float32.of_int 10) (Float32.of_int 30) false
           (replicate 5 (true, Float32.of_int 8)) true (Float32.of_int 8)).
  - lia.
  - reflexivity.
  - repeat constructor.
  - reflexivity.
  - vm_compute. reflexivity.
  - right. reflexivity.
Defined.

(** X22: a doser keeps its active flag over in-range samples.  On an
    enabled doser that no timer blocks and whose counter is 0, an in-range
    sample changes nothing at all, so after a dose and wait cycle (active
    flag set by the trigger, timers expired) any run of in-range samples
    returns [NoAction] and leaves the active flag set; only an in-range
    sample arriving while out-of-range samples are being counted clears
    it. *)
Theorem X22_idle_doser_unchanged_by_in_range_samples :
  forall (N : Z) (c : sensor_control) (samples : list (bool * float)),
    is_control_enabled c = true ->
    is_doser c = true ->
    dose_in_flight c = false ->
    check_index c = 0 ->
    Forall (fun s => out_of_range s.1 c s.2 = false) samples ->
    control_check_samples N c samples
    = Some (c, replicate (length samples) NoAction).
Proof.
  intros N c samples He Hd Hf Hi Hall.
  induction Hall as [|[d v] rest Ho _ IH]; simpl; [done|].
  simpl in Ho.
  rewrite check_body, Ho, Hi by done. simpl.
  unfold check_epilogue. rewrite Hd. simpl. by rewrite IH.
Qed.

Lemma X22_idle_doser_unchanged_by_in_range_samples_witness :
  control_check_samples 5 (set_is_control_active true example_doser)
    [(true, Float32.of_int 6); (false, Float32.of_int 7);
     (true, Float32.of_int 5)]
  = Some (set_is_control_active true example_doser,
          replicate 3 NoAction).
Proof.
  apply (X22_idle_doser_unchanged_by_in_range_samples 5
           (set_is_control_active true example_doser)
           [(true, Float32.of_int 6); (false, Float32.of_int 7);
            (true, Float32.of_int 5)]).
  - reflexivity.
  - reflexivity.
  - reflexivity.
  - reflexivity.
  - repeat constructor.
Defined.

(** * Further properties of the grow manager *)

Section GrowManagerStates.

Variable GROW_ACTIVE_KEY : string.
Variable SETTINGS_RECEIVED_KEY : string.

Lemma exec_seq (m k : GM unit) (s : grow_state) :
  exec (m;; k) s = exec k (exec m s).
Proof.
  unfold exec, mbind, GM_bind. by destruct (m s) as [[] s1].
Qed.

Lemma exec_nvs_get {A : Type} (key : string) (k : option Z -> GM A)
    (s : grow_state) :
  exec (nvs_get_uint8 key ≫= k) s = exec (k (nvs s !! key)) s.
Proof. done. Qed.

(** The state [stop_grow_cycle] returns. *)
Lemma stop_grow_cycle_state (s : grow_state) :
  exec (stop_grow_cycle GROW_ACTIVE_KEY) s
  = Build_grow_state (is_settings_received s) false
      (<[GROW_ACTIVE_KEY := 0]> (nvs s)) false false
      (calls s
       ++ [nvs_commit_data GROW_ACTIVE_KEY 0]
       ++ (vTaskSuspend <$> all_tasks)
       ++ [vTaskDelay 4000]
       ++ (if is_ph_activated s then [hibernate_ph] else [])
       ++ (if is_ec_activated s then [hibernate_ec] else [])).
Proof.
  destruct s as [sr ga m ph ec cs].
  destruct ph, ec; run_grow; rewrite <- ?app_assoc; reflexivity.
Qed.

(** The state [start_grow_cycle] returns once settings were received. *)
Lemma start_grow_cycle_state (s : grow_state) :
  is_settings_received s = true ->
  exec (start_grow_cycle GROW_ACTIVE_KEY) s
  = Build_grow_state true true
      (<[GROW_ACTIVE_KEY := 1]> (nvs s))
      (is_ph_activated s) (is_ec_activated s)
      (calls s
       ++ [nvs_commit_data GROW_ACTIVE_KEY 1]
       ++ (vTaskResume <$> all_tasks)).
Proof.
  destruct s as [sr ga m ph ec cs]. simpl. intros ->.
  run_grow; rewrite <- ?app_assoc; reflexivity.
Qed.

Lemma start_grow_cycle_refused (s : grow_state) :
  is_settings_received s = false ->
  exec (start_grow_cycle GROW_ACTIVE_KEY) s = s.
Proof.
  destruct s as [sr ga m ph ec cs]. simpl. intros ->. reflexivity.
Qed.

Lemma settings_received_state (s : grow_state) :
  exec (settings_received SETTINGS_RECEIVED_KEY) s
  = Build_grow_state true (is_grow_active s)
      (<[SETTINGS_RECEIVED_KEY := 1]> (nvs s))
      (is_ph_activated s) (is_ec_activated s)
      (calls s ++ [nvs_commit_data SETTINGS_RECEIVED_KEY 1]).
Proof.
  destruct s as [sr ga m ph ec cs]. run_grow. reflexivity.
Qed.

(** Each operation keeps the stored flag equal to the flag in memory. *)
Lemma do_grow_op_persisted (o : grow_op) (s : grow_state) :
  GROW_ACTIVE_KEY <> SETTINGS_RECEIVED_KEY ->
  grow_status_persisted GROW_ACTIVE_KEY s ->
  grow_status_persisted GROW_ACTIVE_KEY
    (exec (do_grow_op GROW_ACTIVE_KEY SETTINGS_RECEIVED_KEY o) s).
Proof.
  unfold grow_status_persisted. intros Hne Hs. destruct o; cbn [do_grow_op].
  - destruct (is_settings_received s) eqn:Hsr.
    + rewrite start_grow_cycle_state by done. simpl.
      by rewrite lookup_insert_eq.
    + by rewrite start_grow_cycle_refused.
  - rewrite stop_grow_cycle_state. simpl. by rewrite lookup_insert_eq.
  - rewrite settings_received_state. simpl.
    by rewrite lookup_insert_ne.
Qed.

Lemma do_grow_ops_persisted (os : list grow_op) :
  forall s : grow_state,
  GROW_ACTIVE_KEY <> SETTINGS_RECEIVED_KEY ->
  grow_status_persisted GROW_ACTIVE_KEY s ->
  grow_status_persisted GROW_ACTIVE_KEY
    (do_grow_ops GROW_ACTIVE_KEY SETTINGS_RECEIVED_KEY os s).
Proof.
  induction os as [|o os IH]; intros s Hne Hs; cbn [do_grow_ops]; [done|].
  apply IH; [done|]. by apply do_grow_op_persisted.
Qed.

End GrowManagerStates.

(** X9: once settings were received, [start_grow_cycle] sets
    [is_grow_active], stores 1 under the grow-active key and resumes each
    of the seven tasks once, in the order of [resume_tasks]; it issues no
    other call and leaves the probes' activated flags as they were. *)
Theorem X9_start_resumes_every_task :
  forall (GROW_ACTIVE_KEY : string) (s : grow_state),
    is_settings_received s = true ->
    let s' := exec (start_grow_cycle GROW_ACTIVE_KEY) s in
    is_grow_active s' = true
    /\ nvs s' = <[GROW_ACTIVE_KEY := 1]> (nvs s)
    /\ calls s' = calls s
                  ++ [nvs_commit_data GROW_ACTIVE_KEY 1;
                      vTaskResume timer_alarm_task;
                      vTaskResume publish_task;
                      vTaskResume sensor_control_task;
                      vTaskResume water_temp_sensor_task;
                      vTaskResume ec_sensor_task;
                      vTaskResume ph_sensor_task;
                      vTaskResume sync_task]
    /\ is_ph_activated s' = is_ph_activated s
    /\ is_ec_activated s' = is_ec_activated s.
Proof.
  intros K s Hs s'. subst s'. by rewrite start_grow_cycle_state.
Qed.

Lemma X9_start_resumes_every_task_witness :
  let s := Build_grow_state true false ∅ true false [] in
  let s' := exec (start_grow_cycle "grow_active") s in
  is_grow_active s' = true
  /\ nvs s' = <["grow_active" := 1]> (nvs s)
  /\ calls s' = calls s
                ++ [nvs_commit_data "grow_active" 1;
                    vTaskResume timer_alarm_task;
                    vTaskResume publish_task;
                    vTaskResume sensor_control_task;
                    vTaskResume water_temp_sensor_task;
                    vTaskResume ec_sensor_task;
                    vTaskResume ph_sensor_task;
                    vTaskResume sync_task]
  /\ is_ph_activated s' = is_ph_activated s
  /\ is_ec_activated s' = is_ec_activated s.
Proof.
  apply (X9_start_resumes_every_task "grow_active"
           (Build_grow_state true false ∅ true false [])).
  reflexivity.
Defined.

(** X10: [settings_received] unlocks [start_grow_cycle].  From any state,
    [settings_received] followed by [start_grow_cycle] leaves both flags
    set in memory and both keys stored as 1, whereas [start_grow_cycle]
    alone on a state without settings changes nothing. *)
Theorem X10_settings_received_unlocks_start :
  forall (GROW_ACTIVE_KEY SETTINGS_RECEIVED_KEY : string) (s : grow_state),
    let s' := exec (settings_received SETTINGS_RECEIVED_KEY;;
                    start_grow_cycle GROW_ACTIVE_KEY) s in
    is_settings_received s' = true
    /\ is_grow_active s' = true
    /\ nvs s' = <[GROW_ACTIVE_KEY := 1]>
                  (<[SETTINGS_RECEIVED_KEY := 1]> (nvs s))
    /\ nvs s' !! GROW_ACTIVE_KEY = Some 1
    /\ (GROW_ACTIVE_KEY <> SETTINGS_RECEIVED_KEY ->
        nvs s' !! SETTINGS_RECEIVED_KEY = Some 1).
Proof.
  intros GA SR s s'. subst s'.
  rewrite exec_seq, settings_received_state.
  rewrite start_grow_cycle_state by done. simpl.
  split; [done|]. split; [done|]. split; [done|].
  split; [by rewrite lookup_insert_eq|].
  intros Hne. rewrite lookup_insert_ne by done. by rewrite lookup_insert_eq.
Qed.

Lemma X10_settings_received_unlocks_start_witness :
  nvs (exec (settings_received "settings_received";;
             start_grow_cycle "grow_active") example_grow_state)
  !! "settings_received" = Some 1.
Proof.
  apply (X10_settings_received_unlocks_start "grow_active"
           "settings_received" example_grow_state).
  discriminate.
Defined.

(** X11: [stop_grow_cycle] is idempotent on the state.  A second call
    leaves the flags and the NVS content as the first call left them; it
    stores 0 and suspends the seven tasks again, and hibernates no probe,
    the first call having cleared both activated flags. *)
Theorem X11_stop_twice_is_stop_once :
  forall (GROW_ACTIVE_KEY : string) (s : grow_state),
    let s1 := exec (stop_grow_cycle GROW_ACTIVE_KEY) s in
    let s2 := exec (stop_grow_cycle GROW_ACTIVE_KEY) s1 in
    is_settings_received s2 = is_settings_received s1
    /\ is_grow_active s2 = is_grow_active s1
    /\ nvs s2 = nvs s1
    /\ is_ph_activated s2 = is_ph_activated s1
    /\ is_ec_activated s2 = is_ec_activated s1
    /\ calls s2 = calls s1
                  ++ [nvs_commit_data GROW_ACTIVE_KEY 0]
                  ++ (vTaskSuspend <$> all_tasks)
                  ++ [vTaskDelay 4000].
Proof.
  intros K s s1 s2. subst s2 s1.
  rewrite (stop_grow_cycle_state K (exec _ s)).
  rewrite (stop_grow_cycle_state K s). simpl.
  split; [done|]. split; [done|].
  split; [by rewrite insert_insert_eq|]. done.
Qed.

(** X12: the stored grow-active flag follows the flag in memory.  After
    [stop_grow_cycle], and then after any sequence of [start_grow_cycle],
    [stop_grow_cycle] and [settings_received] calls, refused starts
    included, the byte stored under the grow-active key is the value of
    [is_grow_active] (the two keys being different). *)
Theorem X12_stored_flag_follows_memory :
  forall (GROW_ACTIVE_KEY SETTINGS_RECEIVED_KEY : string)
         (os : list grow_op) (s : grow_state),
    GROW_ACTIVE_KEY <> SETTINGS_RECEIVED_KEY ->
    grow_status_persisted GROW_ACTIVE_KEY
      (do_grow_ops GROW_ACTIVE_KEY SETTINGS_RECEIVED_KEY os
         (exec (stop_grow_cycle GROW_ACTIVE_KEY) s)).
Proof.
  intros GA SR os s Hne. apply do_grow_ops_persisted; [done|].
  unfold grow_status_persisted. rewrite stop_grow_cycle_state. simpl.
  by rewrite lookup_insert_eq.
Qed.

Lemma X12_stored_flag_follows_memory_witness :
  grow_status_persisted "grow_active"
    (do_grow_ops "grow_active" "settings_received"
       [op_start_grow_cycle; op_settings_received; op_start_grow_cycle;
        op_stop_grow_cycle; op_start_grow_cycle]
       (exec (stop_grow_cycle "grow_active") example_grow_state)).
Proof.
  apply (X12_stored_flag_follows_memory "grow_active" "settings_received"
           [op_start_grow_cycle; op_settings_received; op_start_grow_cycle;
            op_stop_grow_cycle; op_start_grow_cycle] example_grow_state).
  discriminate.
Defined.

Section GrowManagerStartUp.

Variable GROW_ACTIVE_KEY : string.
Variable SETTINGS_RECEIVED_KEY : string.
Variable ph_get_nvs_settings : GM unit.
Variable ec_get_nvs_settings : GM unit.
Variable water_temp_get_nvs_settings : GM unit.

Hypothesis keys_differ : GROW_ACTIVE_KEY <> SETTINGS_RECEIVED_KEY.
Hypothesis ph_keeps : keeps_grow_state ph_get_nvs_settings.
Hypothesis ec_keeps : keeps_grow_state ec_get_nvs_settings.
Hypothesis water_temp_keeps : keeps_grow_state water_temp_get_nvs_settings.

Let init : GM unit :=
  init_grow_manager GROW_ACTIVE_KEY SETTINGS_RECEIVED_KEY
    ph_get_nvs_settings ec_get_nvs_settings water_temp_get_nvs_settings.

(** No settings stored: the cycle is stopped. *)
Lemma init_without_settings (s : grow_state) :
  status_clear (nvs s !! SETTINGS_RECEIVED_KEY) = true ->
  exec init s
  = exec (stop_grow_cycle GROW_ACTIVE_KEY)
      (exec (GrowOps.set_is_settings_received false) s).
Proof.
  intros Hc. unfold init, init_grow_manager.
  rewrite exec_nvs_get, Hc. apply exec_seq.
Qed.

(** Settings stored: the state once the settings are loaded and marked
    received, before the grow-active key is read. *)
Lemma init_with_settings (s : grow_state) :
  status_clear (nvs s !! SETTINGS_RECEIVED_KEY) = false ->
  exists s1 : grow_state,
    nvs s1 = nvs s
    /\ is_ph_activated s1 = is_ph_activated s
    /\ is_ec_activated s1 = is_ec_activated s
    /\ exec init s
       = exec (if status_clear (nvs s !! GROW_ACTIVE_KEY)
               then stop_grow_cycle GROW_ACTIVE_KEY
               else start_grow_cycle GROW_ACTIVE_KEY)
           (exec (settings_received SETTINGS_RECEIVED_KEY) s1).
Proof.
  intros Hc.
  exists (exec water_temp_get_nvs_settings
            (exec ec_get_nvs_settings (exec ph_get_nvs_settings s))).
  destruct (ph_keeps s) as (_ & _ & Hn1 & Hp1 & He1).
  destruct (ec_keeps (exec ph_get_nvs_settings s))
    as (_ & _ & Hn2 & Hp2 & He2).
  destruct (water_temp_keeps
              (exec ec_get_nvs_settings (exec ph_get_nvs_settings s)))
    as (_ & _ & Hn3 & Hp3 & He3).
  split; [congruence|]. split; [congruence|]. split; [congruence|].
  unfold init, init_grow_manager.
  rewrite exec_nvs_get, Hc.
  rewrite !exec_seq.
  rewrite (exec_nvs_get GROW_ACTIVE_KEY).
  rewrite settings_received_state. cbn [nvs].
  rewrite lookup_insert_ne by done.
  by rewrite Hn3, Hn2, Hn1.
Qed.

(** What start-up decides, from the two stored bytes alone. *)
Lemma init_grow_manager_outcome (s : grow_state) :
  let s' := exec init s in
  let stored_settings := negb (status_clear (nvs s !! SETTINGS_RECEIVED_KEY)) in
  let stored_active := negb (status_clear (nvs s !! GROW_ACTIVE_KEY)) in
  is_settings_received s' = stored_settings
  /\ is_grow_active s' = stored_settings && stored_active
  /\ grow_status_persisted GROW_ACTIVE_KEY s'
  /\ (is_grow_active s' = false ->
      is_ph_activated s' = false /\ is_ec_activated s' = false)
  /\ (is_grow_active s' = true ->
      is_ph_activated s' = is_ph_activated s
      /\ is_ec_activated s' = is_ec_activated s
      /\ exists pre,
           calls s' = pre
                      ++ [nvs_commit_data SETTINGS_RECEIVED_KEY 1;
                          nvs_commit_data GROW_ACTIVE_KEY 1]
                      ++ (vTaskResume <$> all_tasks)).
Proof.
  intros s' ss sa. subst s' ss sa. unfold grow_status_persisted.
  destruct (status_clear (nvs s !! SETTINGS_RECEIVED_KEY)) eqn:Hsr.
  - rewrite init_without_settings by done.
    rewrite stop_grow_cycle_state. simpl.
    rewrite lookup_insert_eq. done.
  - destruct (init_with_settings s Hsr) as (s1 & Hn & Hp & He & ->).
    rewrite settings_received_state.
    destruct (status_clear (nvs s !! GROW_ACTIVE_KEY)) eqn:Hga.
    + rewrite stop_grow_cycle_state. simpl.
      rewrite lookup_insert_eq. done.
    + rewrite start_grow_cycle_state by done. simpl.
      rewrite lookup_insert_eq.
      split; [done|]. split; [done|]. split; [done|]. split; [done|].
      intros _. split; [done|]. split; [done|].
      exists (calls s1). by rewrite <- app_assoc.
Qed.

End GrowManagerStartUp.

(** X13: [init_grow_manager] decides from the two bytes stored in NVS
    alone, whatever the globals held.  The settings are marked received
    exactly when a non-zero byte is stored under the settings-received key
    (a missing key counts as 0), and the grow cycle is started exactly when
    in addition a non-zero byte is stored under the grow-active key; in
    every other case the cycle is stopped and both probes are left
    hibernated.  Afterwards the stored grow-active byte is the flag in
    memory.  The settings loaders are assumed to leave the grow manager's
    state alone, and the two keys to differ. *)
Theorem X13_start_up_follows_stored_flags :
  forall (GROW_ACTIVE_KEY SETTINGS_RECEIVED_KEY : string)
         (ph_get_nvs_settings ec_get_nvs_settings
          water_temp_get_nvs_settings : GM unit) (s : grow_state),
    GROW_ACTIVE_KEY <> SETTINGS_RECEIVED_KEY ->
    keeps_grow_state ph_get_nvs_settings ->
    keeps_grow_state ec_get_nvs_settings ->
    keeps_grow_state water_temp_get_nvs_settings ->
    let s' := exec (init_grow_manager GROW_ACTIVE_KEY SETTINGS_RECEIVED_KEY
                      ph_get_nvs_settings ec_get_nvs_settings
                      water_temp_get_nvs_settings) s in
    is_settings_received s'
    = negb (status_clear (nvs s !! SETTINGS_RECEIVED_KEY))
    /\ is_grow_active s'
       = negb (status_clear (nvs s !! SETTINGS_RECEIVED_KEY))
         && negb (status_clear (nvs s !! GROW_ACTIVE_KEY))
    /\ grow_status_persisted GROW_ACTIVE_KEY s'
    /\ (is_grow_active s' = false ->
        is_ph_activated s' = false /\ is_ec_activated s' = false).
Proof.
  intros GA SR ph ec wt s Hne Hph Hec Hwt s'.
  destruct (init_grow_manager_outcome GA SR ph ec wt Hne Hph Hec Hwt s)
    as (H1 & H2 & H3 & H4 & _).
  done.
Qed.

Lemma keeps_grow_state_skip : keeps_grow_state (mret tt).
Proof. intros s. done. Qed.

Lemma X13_start_up_follows_stored_flags_witness :
  let s := Build_grow_state false false
             (<["settings_received" := 1]> (<["grow_active" := 1]> ∅))
             false false [] in
  let s' := exec (init_grow_manager "grow_active" "settings_received"
                    (mret tt) (mret tt) (mret tt)) s in
  is_settings_received s'
  = negb (status_clear (nvs s !! "settings_received"))
  /\ is_grow_active s'
     = negb (status_clear (nvs s !! "settings_received"))
       && negb (status_clear (nvs s !! "grow_active"))
  /\ grow_status_persisted "grow_active" s'
  /\ (is_grow_active s' = false ->
      is_ph_activated s' = false /\ is_ec_activated s' = false).
Proof.
  apply (X13_start_up_follows_stored_flags "grow_active" "settings_received"
           (mret tt) (mret tt) (mret tt)).
  - discriminate.
  - apply keeps_grow_state_skip.
  - apply keeps_grow_state_skip.
  - apply keeps_grow_state_skip.
Defined.

(** X14: the grow status survives a restart.  If the NVS content at
    start-up is what [settings_received] followed by [start_grow_cycle]
    left, [init_grow_manager] sets [is_grow_active] again and its last
    calls resume the seven tasks; if it is what a further
    [stop_grow_cycle] left, the cycle stays stopped with the settings
    still marked received.  The globals at start-up play no part. *)
Theorem X14_grow_status_survives_restart :
  forall (GROW_ACTIVE_KEY SETTINGS_RECEIVED_KEY : string)
         (ph_get_nvs_settings ec_get_nvs_settings
          water_temp_get_nvs_settings : GM unit)
         (before boot : grow_state),
    GROW_ACTIVE_KEY <> SETTINGS_RECEIVED_KEY ->
    keeps_grow_state ph_get_nvs_settings ->
    keeps_grow_state ec_get_nvs_settings ->
    keeps_grow_state water_temp_get_nvs_settings ->
    let init := init_grow_manager GROW_ACTIVE_KEY SETTINGS_RECEIVED_KEY
                  ph_get_nvs_settings ec_get_nvs_settings
                  water_temp_get_nvs_settings in
    let started := exec (settings_received SETTINGS_RECEIVED_KEY;;
                         start_grow_cycle GROW_ACTIVE_KEY) before in
    let stopped := exec (stop_grow_cycle GROW_ACTIVE_KEY) started in
    (nvs boot = nvs started ->
     is_settings_received (exec init boot) = true
     /\ is_grow_active (exec init boot) = true
     /\ exists pre,
          calls (exec init boot)
          = pre ++ [nvs_commit_data SETTINGS_RECEIVED_KEY 1;
                    nvs_commit_data GROW_ACTIVE_KEY 1]
                ++ (vTaskResume <$> all_tasks))
    /\ (nvs boot = nvs stopped ->
        is_settings_received (exec init boot) = true
        /\ is_grow_active (exec init boot) = false).
Proof.
  intros GA SR ph ec wt before boot Hne Hph Hec Hwt init started stopped.
  destruct (init_grow_manager_outcome GA SR ph ec wt Hne Hph Hec Hwt boot)
    as (H1 & H2 & _ & _ & H5).
  fold init in H1, H2, H5.
  assert (nvs started = <[GA := 1]> (<[SR := 1]> (nvs before))) as Hstarted.
  { subst started. rewrite exec_seq, settings_received_state.
    by rewrite start_grow_cycle_state. }
  assert (nvs stopped = <[GA := 0]> (nvs started)) as Hstopped.
  { subst stopped. by rewrite stop_grow_cycle_state. }
  split; intros Hboot.
  - rewrite Hboot, Hstarted in H1, H2.
    rewrite lookup_insert_ne, lookup_insert_eq in H1 by done.
    rewrite lookup_insert_ne, !lookup_insert_eq in H2 by done.
    split; [done|]. split; [done|]. by apply H5.
  - rewrite Hboot, Hstopped, Hstarted in H1, H2.
    rewrite lookup_insert_ne, lookup_insert_ne, lookup_insert_eq in H1
      by done.
    rewrite lookup_insert_eq in H2. simpl in H2.
    rewrite andb_false_r in H2. done.
Qed.

Lemma X14_grow_status_survives_restart_witness :
  let init := init_grow_manager "grow_active" "settings_received"
                (mret tt) (mret tt) (mret tt) in
  let boot := Build_grow_state false false
                (<["grow_active" := 1]> (<["settings_received" := 1]> ∅))
                false false [] in
  is_settings_received (exec init boot) = true
  /\ is_grow_active (exec init boot) = true
  /\ exists pre,
       calls (exec init boot)
       = pre ++ [nvs_commit_data "settings_received" 1;
                 nvs_commit_data "grow_active" 1]
             ++ (vTaskResume <$> all_tasks).
Proof.
  apply (X14_grow_status_survives_restart "grow_active" "settings_received"
           (mret tt) (mret tt) (mret tt)
           (Build_grow_state false false ∅ false false [])
           (Build_grow_state false false
              (<["grow_active" := 1]> (<["settings_received" := 1]> ∅))
              false false [])).
  - discriminate.
  - apply keeps_grow_state_skip.
  - apply keeps_grow_state_skip.
  - apply keeps_grow_state_skip.
  - reflexivity.
Defined.

(** * Properties of the BME280 driver *)

Lemma byte_values_complete (b : Z) : 0 <= b < 256 -> b ∈ byte_values.
Proof.
  intros Hb. unfold byte_values.
  apply list_elem_of_fmap. exists (Z.to_nat b). split; [lia|].
  apply elem_of_seq. lia.
Qed.

Lemma field_writes_checked :
  forallb (fun f =>
    forallb (fun reg => forallb (field_write_ok f reg) byte_values)
      byte_values) BME280.written_fields = true.
Proof. vm_compute. reflexivity. Qed.

Lemma field_write_ok_all (f : BME280.reg_field) (reg v : Z) :
  f ∈ BME280.written_fields -> 0 <= reg < 256 -> 0 <= v < 256 ->
  field_write_ok f reg v = true.
Proof.
  intros Hf Hreg Hv.
  pose proof field_writes_checked as H.
  rewrite forallb_forall in H.
  apply list_elem_of_In in Hf. specialize (H f Hf).
  rewrite forallb_forall in H.
  specialize (H reg (proj1 (list_elem_of_In _ _) (byte_values_complete reg Hreg))).
  rewrite forallb_forall in H.
  exact (H v (proj1 (list_elem_of_In _ _) (byte_values_complete v Hv))).
Qed.

(** X15: a write to a register field ([reg = bme_set_reg_bit(reg, F, v)],
    for the mode, the temperature and humidity oversampling and the filter
    fields) yields a byte in which the field reads back, with
    [bme_get_reg_bit], as [v] cut to the width of the field, and every bit
    outside the field is the bit of the old register value; a later write
    to the same field therefore replaces the earlier one. *)
Theorem X15_register_field_write_reads_back :
  forall (f : BME280.reg_field) (reg v w : Z),
    f ∈ BME280.written_fields ->
    0 <= reg < 256 ->
    0 <= v < 256 ->
    let r := BME280.update_reg reg f v in
    0 <= r < 256
    /\ BME280.bme_get_reg_bit r f
       = Z.land v (Z.shiftr (BME280.field_bits f) (BME280.field_shift f))
    /\ Z.land r (Z.lnot (BME280.field_bits f))
       = Z.land reg (Z.lnot (BME280.field_bits f))
    /\ BME280.update_reg r f w = BME280.update_reg reg f w.
Proof.
  intros f reg v w Hf Hreg Hv r.
  pose proof (field_write_ok_all f reg v Hf Hreg Hv) as H.
  unfold field_write_ok in H. fold r in H.
  apply andb_prop in H as [H Hframe].
  apply andb_prop in H as [H Hget].
  apply andb_prop in H as [Hlo Hhi].
  apply Z.eqb_eq in Hframe, Hget.
  apply Z.leb_le in Hlo. apply Z.ltb_lt in Hhi.
  split; [lia|]. split; [done|]. split; [done|].
  unfold BME280.update_reg, BME280.bme_set_reg_bit.
  fold (BME280.update_reg reg f v). fold r. by rewrite Hframe.
Qed.

Lemma X15_register_field_write_reads_back_witness :
  let r := BME280.update_reg 0xff BME280.BME280_OSR_T 2 in
  0 <= r < 256
  /\ BME280.bme_get_reg_bit r BME280.BME280_OSR_T
     = Z.land 2 (Z.shiftr (BME280.field_bits BME280.BME280_OSR_T)
                          (BME280.field_shift BME280.BME280_OSR_T))
  /\ Z.land r (Z.lnot (BME280.field_bits BME280.BME280_OSR_T))
     = Z.land 0xff (Z.lnot (BME280.field_bits BME280.BME280_OSR_T))
  /\ BME280.update_reg r BME280.BME280_OSR_T 5
     = BME280.update_reg 0xff BME280.BME280_OSR_T 5.
Proof.
  apply (X15_register_field_write_reads_back BME280.BME280_OSR_T 0xff 2 5).
  - apply list_elem_of_In. simpl. tauto.
  - lia.
  - lia.
Defined.

Section Bme280Arithmetic.
Import BME280.

Lemma uint32_small (z : Z) : 0 <= z < 2 ^ 32 -> uint32 z = z.
Proof. intros Hz. unfold uint32. by apply Z.mod_small. Qed.

(** The cycle count [1 << (osr - 1)] of an enabled quantity. *)
Lemma cycles_bound (o : Z) :
  0 <= o <= 7 -> o <> 0 ->
  Z.shiftl 1 (o - 1) = 2 ^ (o - 1) /\ 1 <= 2 ^ (o - 1) <= 64.
Proof.
  intros Ho Hne.
  assert (o = 1 \/ o = 2 \/ o = 3 \/ o = 4 \/ o = 5 \/ o = 6 \/ o = 7)
    as Hcases by lia.
  destruct Hcases as [->|[->|[->|[->|[->|[->| ->]]]]]];
    (split; [reflexivity|simpl; lia]).
Qed.

(** Milliseconds to ticks, rounded up, plus one tick. *)
Lemma ticks_bound (ms P : Z) :
  0 < P <= 1000 -> 0 <= ms <= 1000000 ->
  let t := uint32 (uint32 (ms + P - 1) / P + 1) in
  t = (ms + P - 1) / P + 1 /\ ms <= (t - 1) * P < ms + P.
Proof.
  intros HP Hms t. subst t.
  rewrite (uint32_small (ms + P - 1)) by lia.
  pose proof (Z.mul_div_le (ms + P - 1) P ltac:(lia)) as Hle.
  pose proof (Z.mul_succ_div_gt (ms + P - 1) P ltac:(lia)) as Hgt.
  assert (0 <= (ms + P - 1) / P) as Hq by (apply Z.div_pos; lia).
  assert ((ms + P - 1) / P <= ms + P - 1) as Hq'.
  { apply Z.div_le_upper_bound; [lia|]. nia. }
  rewrite uint32_small by lia.
  split; [done|]. nia.
Qed.

Lemma measurement_ms (ot oh : Z) :
  0 <= ot <= 7 -> 0 <= oh <= 7 ->
  let us := measurement_us ot oh in
  let duration := uint32 (0 + 1250) in
  let duration :=
    if ot =? 0 then duration
    else uint32 (duration + Z.shiftl 1 (ot - 1) * 2300) in
  let duration :=
    if oh =? 0 then duration
    else uint32 (duration + (Z.shiftl 1 (oh - 1) * 2300 + 575)) in
  uint32 (uint32 (duration + 999) / 1000 + 5) = (us + 999) / 1000 + 5
  /\ 1250 <= us <= 296225.
Proof.
  intros Hot Hoh. unfold measurement_us. cbv zeta.
  rewrite (uint32_small (0 + 1250)) by lia.
  set (ut := if ot =? 0 then 0 else 2 ^ (ot - 1) * 2300).
  set (uh := if oh =? 0 then 0 else 2 ^ (oh - 1) * 2300 + 575).
  assert (0 <= ut <= 147200) as Hut.
  { subst ut. destruct (Z.eqb_spec ot 0) as [_|Hne]; [lia|].
    destruct (cycles_bound ot Hot Hne) as [_ ?]. lia. }
  assert (0 <= uh <= 147775) as Huh.
  { subst uh. destruct (Z.eqb_spec oh 0) as [_|Hne]; [lia|].
    destruct (cycles_bound oh Hoh Hne) as [_ ?]. lia. }
  assert ((if ot =? 0 then 0 + 1250
           else uint32 (0 + 1250 + Z.shiftl 1 (ot - 1) * 2300))
          = 1250 + ut) as ->.
  { subst ut. destruct (Z.eqb_spec ot 0) as [_|Hne]; [lia|].
    destruct (cycles_bound ot Hot Hne) as [-> ?].
    rewrite uint32_small; lia. }
  assert ((if oh =? 0 then 1250 + ut
           else uint32 (1250 + ut + (Z.shiftl 1 (oh - 1) * 2300 + 575)))
          = 1250 + ut + uh) as ->.
  { subst uh. destruct (Z.eqb_spec oh 0) as [_|Hne]; [lia|].
    destruct (cycles_bound oh Hoh Hne) as [-> ?].
    rewrite uint32_small; lia. }
  split; [|lia].
  rewrite (uint32_small (1250 + ut + uh + 999)) by lia.
  assert (0 <= (1250 + ut + uh + 999) / 1000 < 1000) as Hms.
  { split; [apply Z.div_pos; lia|].
    apply Z.div_lt_upper_bound; lia. }
  rewrite uint32_small by lia. done.
Qed.

End Bme280Arithmetic.

(** X16: the delay [bme280_get_measurement_duration] computes covers the
    measurement.  For oversampling codes 0..7 (the three bits of the
    register fields) and a tick period of 1..1000 ms, the result [t] is at
    least 2 ticks, so never the 0 that [bme280_measure_fixed] and
    [bme280_measure_float] treat as a failure; [t - 1] ticks last at least
    the measurement time (1250 us, plus 2300 us per temperature cycle and
    2300 us + 575 us per humidity cycle) plus 5 ms, and less than that
    plus one tick. *)
Theorem X16_measurement_duration_covers_measurement :
  forall (P osr_temperature osr_humidity : Z),
    0 < P <= 1000 ->
    0 <= osr_temperature <= 7 ->
    0 <= osr_humidity <= 7 ->
    let t := BME280.bme280_get_measurement_duration P osr_temperature
               osr_humidity in
    let us := BME280.measurement_us osr_temperature osr_humidity in
    2 <= t
    /\ us + 5000 <= (t - 1) * P * 1000
    /\ (t - 1) * P * 1000 < us + 5000 + P * 1000.
Proof.
  intros P ot oh HP Hot Hoh t us.
  destruct (measurement_ms ot oh Hot Hoh) as [Hms Hus]. fold us in Hms, Hus.
  subst t. unfold BME280.bme280_get_measurement_duration. cbv zeta.
  cbv zeta in Hms. rewrite Hms.
  pose proof (Z.mul_div_le (us + 999) 1000 ltac:(lia)) as Hle.
  pose proof (Z.mul_succ_div_gt (us + 999) 1000 ltac:(lia)) as Hgt.
  destruct (ticks_bound ((us + 999) / 1000 + 5) P HP) as [Ht Hb].
  { assert (0 <= (us + 999) / 1000) by (apply Z.div_pos; lia).
    assert ((us + 999) / 1000 < 1000)
      by (apply Z.div_lt_upper_bound; lia).
    lia. }
  cbv zeta in Ht, Hb. clear Hms Ht.
  set (ms := (us + 999) / 1000 + 5) in *.
  set (t := BME280.uint32 (BME280.uint32 (ms + P - 1) / P + 1)) in *.
  assert (2 <= t) as Ht by nia.
  split; [done|].
  set (X := (t - 1) * P) in *. lia.
Qed.

Lemma X16_measurement_duration_covers_measurement_witness :
  let t := BME280.bme280_get_measurement_duration 10 1 1 in
  let us := BME280.measurement_us 1 1 in
  2 <= t
  /\ us + 5000 <= (t - 1) * 10 * 1000
  /\ (t - 1) * 10 * 1000 < us + 5000 + 10 * 1000.
Proof.
  apply (X16_measurement_duration_covers_measurement 10 1 1); lia.
Defined.

(** Or-ing a value below [2^n] under a value shifted left by [n] adds
    them. *)
Lemma lor_shiftl_add (a b n : Z) :
  0 <= n -> 0 <= b < 2 ^ n -> Z.lor (Z.shiftl a n) b = a * 2 ^ n + b.
Proof.
  intros Hn Hb.
  assert (Z.land (Z.shiftl a n) b = 0) as Hdisjoint.
  { apply Z.bits_inj'. intros i Hi.
    rewrite Z.land_spec, Z.bits_0.
    destruct (Z.lt_ge_cases i n) as [Hlt|Hge].
    - by rewrite Z.shiftl_spec_low.
    - apply andb_false_intro2. apply Z.testbit_false; [done|].
      rewrite Z.div_small; [done|].
      split; [lia|]. apply Z.lt_le_trans with (2 ^ n); [lia|].
      apply Z.pow_le_mono_r; lia. }
  rewrite <- Z.lxor_lor, <- Z.add_nocarry_lxor by done.
  by rewrite Z.shiftl_mul_pow2.
Qed.

(** X17: the raw values [bme280_get_raw_data] hands on.  From the bytes
    read from the sensor, the raw temperature is the 20-bit big-endian
    number made of bytes 5 and 6 and the high nibble of byte 7 (the low
    nibble is dropped), and the raw humidity the 16-bit big-endian number
    made of bytes 8 and 9; both fit their types without truncation. *)
Theorem X17_raw_data_is_big_endian :
  forall (raw : list Z) (t_msb t_lsb t_xlsb h_msb h_lsb : Z),
    raw !! 5%nat = Some t_msb ->
    raw !! 6%nat = Some t_lsb ->
    raw !! 7%nat = Some t_xlsb ->
    raw !! 8%nat = Some h_msb ->
    raw !! 9%nat = Some h_lsb ->
    0 <= t_msb < 256 -> 0 <= t_lsb < 256 -> 0 <= t_xlsb < 256 ->
    0 <= h_msb < 256 -> 0 <= h_lsb < 256 ->
    BME280.raw_data_of_bytes raw
    = Some (t_msb * 4096 + t_lsb * 16 + t_xlsb / 16, h_msb * 256 + h_lsb)
    /\ 0 <= t_msb * 4096 + t_lsb * 16 + t_xlsb / 16 < 2 ^ 20
    /\ 0 <= h_msb * 256 + h_lsb < 2 ^ 16.
Proof.
  intros raw b5 b6 b7 b8 b9 H5 H6 H7 H8 H9 R5 R6 R7 R8 R9.
  assert (0 <= b7 / 16 < 16) as R7'.
  { split; [apply Z.div_pos; lia|]. apply Z.div_lt_upper_bound; lia. }
  split; [|lia].
  unfold BME280.raw_data_of_bytes, BME280.msb_lsb_xlsb_to_20bit,
    BME280.msb_lsb_to_type.
  change (Z.to_nat BME280.BME280_RAW_T_OFF) with 5%nat.
  change (Z.to_nat (BME280.BME280_RAW_T_OFF + 1)) with 6%nat.
  change (Z.to_nat (BME280.BME280_RAW_T_OFF + 2)) with 7%nat.
  change (Z.to_nat BME280.BME280_RAW_H_OFF) with 8%nat.
  change (Z.to_nat (BME280.BME280_RAW_H_OFF + 1)) with 9%nat.
  rewrite H5, H6, H7, H8, H9. cbn [mbind option_bind].
  rewrite (lor_shiftl_add b8 b9 8) by (change (2 ^ 8) with 256; lia).
  rewrite (Z.shiftr_div_pow2 b7 4) by lia.
  rewrite (Z.shiftl_mul_pow2 b6 4) by lia.
  rewrite (lor_shiftl_add b5 (b6 * 2 ^ 4) 12)
    by (change (2 ^ 4) with 16; change (2 ^ 12) with 4096; lia).
  replace (b5 * 2 ^ 12 + b6 * 2 ^ 4) with ((b5 * 256 + b6) * 2 ^ 4)
    by (change (2 ^ 4) with 16; change (2 ^ 12) with 4096; lia).
  rewrite <- (Z.shiftl_mul_pow2 (b5 * 256 + b6) 4) by lia.
  rewrite (lor_shiftl_add (b5 * 256 + b6) (b7 / 2 ^ 4) 4)
    by (change (2 ^ 4) with 16; lia).
  change (2 ^ 4) with 16. change (2 ^ 8) with 256.
  unfold BME280.uint32.
  change (2 ^ 32) with 4294967296. change (2 ^ 16) with 65536.
  rewrite !Z.mod_small by lia.
  do 2 f_equal; lia.
Qed.

Lemma X17_raw_data_is_big_endian_witness :
  BME280.raw_data_of_bytes [0; 0; 0; 0; 0; 0x80; 0x12; 0x34; 0x56; 0x78]
  = Some (0x80 * 4096 + 0x12 * 16 + 0x34 / 16, 0x56 * 256 + 0x78)
  /\ 0 <= 0x80 * 4096 + 0x12 * 16 + 0x34 / 16 < 2 ^ 20
  /\ 0 <= 0x56 * 256 + 0x78 < 2 ^ 16.
Proof.
  apply (X17_raw_data_is_big_endian
           [0; 0; 0; 0; 0; 0x80; 0x12; 0x34; 0x56; 0x78]
           0x80 0x12 0x34 0x56 0x78); try reflexivity; lia.
Defined.

(** * Properties of the WiFi connection *)

Section WifiFacts.
Import Wifi.

Variable RETRYMAX : Z.
Variable GOT_IP START DISCONNECTED : Z.

Let handler := wifi_event_handler RETRYMAX GOT_IP START DISCONNECTED.
Let run := handle_events RETRYMAX GOT_IP START DISCONNECTED.

Lemma disconnected_step (ok : bool) (st : wifi_state) :
  START <> DISCONNECTED ->
  handler ok st WIFI_EVENT DISCONNECTED
  = if retryNumber st <? RETRYMAX
    then Some (Build_wifi_state (retryNumber st + 1) (wifi_event_group st)
                 (S (connect_calls st)))
    else Some (xEventGroupSetBits WIFI_FAIL_BIT st).
Proof.
  intros Hne. unfold handler, wifi_event_handler. simpl.
  destruct (Z.eqb_spec DISCONNECTED START) as [?|_]; [congruence|].
  by rewrite Z.eqb_refl.
Qed.

(** Consecutive disconnections, from a counter within its bound. *)
Lemma disconnections (oks : list bool) :
  forall st : wifi_state,
  START <> DISCONNECTED ->
  0 <= retryNumber st <= RETRYMAX ->
  let k := Z.of_nat (length oks) in
  let retries := Z.min k (RETRYMAX - retryNumber st) in
  run ((fun ok => (ok, WIFI_EVENT, DISCONNECTED)) <$> oks) st
  = Some (Build_wifi_state
            (retryNumber st + retries)
            (if k <=? RETRYMAX - retryNumber st then wifi_event_group st
             else Z.lor (wifi_event_group st) WIFI_FAIL_BIT)
            (connect_calls st + Z.to_nat retries)).
Proof.
  induction oks as [|ok oks IH]; intros st Hne Hr; cbv zeta.
  - destruct st as [r g c]. simpl in *.
    change (Z.of_nat 0) with 0.
    rewrite Z.min_l by lia.
    destruct (Z.leb_spec 0 (RETRYMAX - r)); [|lia].
    f_equal. f_equal; lia.
  - cbn [fmap list_fmap length]. unfold run. cbn [handle_events].
    fold run. fold handler.
    rewrite disconnected_step by done.
    destruct (Z.ltb_spec (retryNumber st) RETRYMAX) as [Hlt|Hge].
    + cbn [mbind option_bind]. rewrite IH by (simpl; done || lia).
      cbn [retryNumber wifi_event_group connect_calls].
      f_equal. f_equal.
      * lia.
      * destruct (Z.leb_spec (Z.of_nat (length oks))
                    (RETRYMAX - (retryNumber st + 1))),
                 (Z.leb_spec (Z.of_nat (S (length oks)))
                    (RETRYMAX - retryNumber st)); done || lia.
      * lia.
    + cbn [mbind option_bind]. rewrite IH by (simpl; done || lia).
      cbn [retryNumber wifi_event_group connect_calls xEventGroupSetBits].
      rewrite !Z.min_r by lia.
      f_equal. f_equal.
      destruct (Z.leb_spec (Z.of_nat (S (length oks)))
                  (RETRYMAX - retryNumber st)); [lia|].
      destruct (Z.leb_spec (Z.of_nat (length oks))
                  (RETRYMAX - retryNumber st)); [done|].
      by rewrite <- Z.lor_assoc, Z.lor_diag.
Qed.

Lemma connected_test_bit0 (bits : Z) :
  negb (Z.land bits WIFI_CONNECTED_BIT =? 0) = Z.testbit bits 0.
Proof.
  change WIFI_CONNECTED_BIT with (Z.ones 1).
  rewrite Z.land_ones by lia. change (2 ^ 1) with 2.
  rewrite Zmod_odd, Z.bit0_odd. by destruct (Z.odd bits).
Qed.

Lemma handler_connected_bit (ok : bool) (st st' : wifi_state) base id :
  handler ok st base id = Some st' ->
  Z.testbit (wifi_event_group st') 0
  = Z.testbit (wifi_event_group st) 0 || is_got_ip GOT_IP (ok, base, id).
Proof.
  unfold handler, wifi_event_handler, is_got_ip. cbn [fst snd].
  intros H.
  destruct (is_base base IP_EVENT && (id =? GOT_IP)).
  { simplify_eq. cbn [xEventGroupSetBits wifi_event_group].
    rewrite Z.lor_spec. change (Z.testbit WIFI_CONNECTED_BIT 0) with true.
    by rewrite orb_true_r. }
  rewrite orb_false_r.
  destruct (is_base base WIFI_EVENT && (id =? START)).
  { destruct ok; by simplify_eq. }
  destruct (is_base base WIFI_EVENT && (id =? DISCONNECTED)); [|by simplify_eq].
  destruct (retryNumber st <? RETRYMAX); simplify_eq; [done|].
  cbn [xEventGroupSetBits wifi_event_group].
  rewrite Z.lor_spec. change (Z.testbit WIFI_FAIL_BIT 0) with false.
  by rewrite orb_false_r.
Qed.

Lemma run_connected_bit (events : list (bool * esp_event_base * Z)) :
  forall st st' : wifi_state,
  run events st = Some st' ->
  Z.testbit (wifi_event_group st') 0
  = Z.testbit (wifi_event_group st) 0 || existsb (is_got_ip GOT_IP) events.
Proof.
  induction events as [|[[ok base] id] rest IH]; intros st st' H.
  - simpl in H. simplify_eq. by rewrite orb_false_r.
  - unfold run in H. cbn [handle_events] in H. fold run handler in H.
    destruct (handler ok st base id) as [st1|] eqn:H1; [|done].
    cbn [mbind option_bind] in H.
    rewrite (IH st1 st' H), (handler_connected_bit ok st st1 base id H1).
    cbn [existsb]. by rewrite orb_assoc.
Qed.

(** *** The wait of [connect_wifi] *)

Let wait :=
  xEventGroupWaitBits RETRYMAX GOT_IP START DISCONNECTED
    (Z.lor WIFI_CONNECTED_BIT WIFI_FAIL_BIT).

(** The statements of [connect_wifi] after the wait. *)
Let report (r : call_result Z) : call_result bool :=
  match r with
  | Returned sta_event_bits =>
      if negb (Z.land sta_event_bits WIFI_CONNECTED_BIT =? 0)
      then Returned true
      else Returned false
  | Blocked => Blocked
  | Aborted => Aborted
  end.

Lemma wait_quiet (events : list (bool * esp_event_base * Z))
    (st : wifi_state) :
  wifi_event_group st = 0 ->
  wait events st
  = match events with
    | [] => Blocked
    | (ok, base, id) :: rest =>
        match handler ok st base id with
        | None => Aborted
        | Some st1 => wait rest st1
        end
    end.
Proof.
  intros Hg. unfold wait.
  destruct events as [|[[ok base] id] rest]; cbn [xEventGroupWaitBits];
    by rewrite Hg.
Qed.

Lemma wait_set (events : list (bool * esp_event_base * Z))
    (st : wifi_state) :
  wait_bits_set (wifi_event_group st)
    (Z.lor WIFI_CONNECTED_BIT WIFI_FAIL_BIT) = true ->
  wait events st = Returned (wifi_event_group st).
Proof.
  intros Hw. unfold wait.
  destruct events as [|[[ok base] id] rest]; cbn [xEventGroupWaitBits];
    by rewrite Hw.
Qed.

Lemma start_step (st : wifi_state) :
  handler true st WIFI_EVENT START
  = Some (Build_wifi_state 0 (wifi_event_group st) (S (connect_calls st))).
Proof.
  unfold handler, wifi_event_handler. cbn [is_base andb].
  by rewrite Z.eqb_refl.
Qed.

Lemma got_ip_step (ok : bool) (st : wifi_state) :
  handler ok st IP_EVENT GOT_IP
  = Some (xEventGroupSetBits WIFI_CONNECTED_BIT
            (Build_wifi_state 0 (wifi_event_group st) (connect_calls st))).
Proof.
  unfold handler, wifi_event_handler. cbn [is_base andb].
  by rewrite Z.eqb_refl.
Qed.

(** Disconnections the retries absorb set no bit. *)
Lemma run_disconnections_quiet (oks : list bool) (st : wifi_state) :
  START <> DISCONNECTED ->
  0 <= retryNumber st ->
  retryNumber st + Z.of_nat (length oks) <= RETRYMAX ->
  run ((fun ok => (ok, WIFI_EVENT, DISCONNECTED)) <$> oks) st
  = Some (Build_wifi_state (retryNumber st + Z.of_nat (length oks))
            (wifi_event_group st) (connect_calls st + length oks)).
Proof.
  intros Hne H0 Hr. rewrite (disconnections oks st Hne) by lia.
  cbv zeta. rewrite Z.min_l by lia.
  destruct (Z.leb_spec (Z.of_nat (length oks)) (RETRYMAX - retryNumber st));
    [|lia].
  by rewrite Nat2Z.id.
Qed.

Lemma wait_disconnections_blocked (oks : list bool) :
  forall st : wifi_state,
  START <> DISCONNECTED ->
  wifi_event_group st = 0 ->
  retryNumber st + Z.of_nat (length oks) <= RETRYMAX ->
  wait ((fun ok => (ok, WIFI_EVENT, DISCONNECTED)) <$> oks) st = Blocked.
Proof.
  induction oks as [|ok oks IH]; intros st Hne Hg Hr.
  - by rewrite wait_quiet.
  - cbn [fmap list_fmap length] in *. rewrite wait_quiet by done.
    rewrite disconnected_step by done.
    destruct (Z.ltb_spec (retryNumber st) RETRYMAX) as [Hlt|Hge]; [|lia].
    apply IH; cbn [retryNumber wifi_event_group]; [done..|lia].
Qed.

(** Disconnections, then an address: the wait returns at the first bit
    set, the failure bit when the retries run out first. *)
Lemma wait_disconnections_got_ip (oks : list bool) (ok' : bool)
    (rest : list (bool * esp_event_base * Z)) :
  forall st : wifi_state,
  START <> DISCONNECTED ->
  wifi_event_group st = 0 ->
  retryNumber st <= RETRYMAX ->
  wait (((fun ok => (ok, WIFI_EVENT, DISCONNECTED)) <$> oks)
        ++ (ok', IP_EVENT, GOT_IP) :: rest) st
  = Returned (if retryNumber st + Z.of_nat (length oks) <=? RETRYMAX
              then WIFI_CONNECTED_BIT else WIFI_FAIL_BIT).
Proof.
  induction oks as [|ok oks IH]; intros st Hne Hg Hr.
  - cbn [fmap list_fmap length app]. rewrite wait_quiet by done.
    rewrite got_ip_step, wait_set;
      cbn [xEventGroupSetBits wifi_event_group]; rewrite Hg; [|done].
    destruct (Z.leb_spec (retryNumber st + Z.of_nat 0) RETRYMAX);
      [done|lia].
  - cbn [fmap list_fmap length app]. rewrite wait_quiet by done.
    rewrite disconnected_step by done.
    destruct (Z.ltb_spec (retryNumber st) RETRYMAX) as [Hlt|Hge].
    + rewrite IH; cbn [retryNumber wifi_event_group]; [|done|done|lia].
      replace (retryNumber st + 1 + Z.of_nat (length oks))
        with (retryNumber st + Z.of_nat (S (length oks))) by lia.
      done.
    + rewrite wait_set;
        cbn [xEventGroupSetBits wifi_event_group]; rewrite Hg; [|done].
      destruct (Z.leb_spec (retryNumber st + Z.of_nat (S (length oks)))
                  RETRYMAX); [lia|done].
Qed.

(** The connected bit is among the bits the wait returns only if it was
    set before the wait or by an event handled during it. *)
Lemma wait_returned_connected
    (events : list (bool * esp_event_base * Z)) (bits : Z) :
  forall st : wifi_state,
  wait events st = Returned bits ->
  Z.testbit bits 0 = true ->
  Z.testbit (wifi_event_group st) 0 || existsb (is_got_ip GOT_IP) events
  = true.
Proof.
  induction events as [|[[ok base] id] rest IH]; intros st H Hb;
    unfold wait in H; cbn [xEventGroupWaitBits] in H;
    destruct (wait_bits_set _ _).
  - injection H as <-. by rewrite Hb.
  - done.
  - injection H as <-. by rewrite Hb.
  - fold handler wait in H.
    destruct (handler ok st base id) as [st1|] eqn:H1; [|done].
    specialize (IH st1 H Hb).
    rewrite (handler_connected_bit ok st st1 base id H1) in IH.
    cbn [existsb]. by rewrite orb_assoc.
Qed.

(** [connect_wifi] once the start event has been handled before the
    wait. *)
Lemma connect_wifi_start_early (m : nat)
    (l : list (bool * esp_event_base * Z)) (st : wifi_state) :
  connect_wifi RETRYMAX GOT_IP START DISCONNECTED true (S m)
    ((true, WIFI_EVENT, START) :: l) st
  = match run (take m l)
            (Build_wifi_state 0 0 (S (connect_calls st))) with
    | None => Aborted
    | Some st1 => report (wait (drop m l) st1)
    end.
Proof.
  unfold connect_wifi. cbn [negb take drop handle_events].
  fold handler run. rewrite start_step. done.
Qed.

Lemma connect_wifi_no_early
    (l : list (bool * esp_event_base * Z)) (st : wifi_state) :
  connect_wifi RETRYMAX GOT_IP START DISCONNECTED true 0
    ((true, WIFI_EVENT, START) :: l) st
  = report (wait l (Build_wifi_state 0 0 (S (connect_calls st)))).
Proof.
  unfold connect_wifi. cbn [negb take drop handle_events].
  fold wait.
  rewrite (wait_quiet ((true, WIFI_EVENT, START) :: l)) by done.
  by rewrite start_step.
Qed.

Lemma report_first_bit (b : bool) :
  report (Returned (if b then WIFI_CONNECTED_BIT else WIFI_FAIL_BIT))
  = Returned b.
Proof. by destruct b. Qed.

Lemma connect_wifi_disconnections_got_ip (oks : list bool) (ok' : bool)
    (rest : list (bool * esp_event_base * Z)) (st : wifi_state)
    (early : nat) :
  START <> DISCONNECTED ->
  0 <= RETRYMAX ->
  Z.of_nat early <= 1 + Z.min (Z.of_nat (length oks)) RETRYMAX ->
  connect_wifi RETRYMAX GOT_IP START DISCONNECTED true early
    ((true, WIFI_EVENT, START)
     :: ((fun ok => (ok, WIFI_EVENT, DISCONNECTED)) <$> oks)
        ++ (ok', IP_EVENT, GOT_IP) :: rest) st
  = Returned (Z.of_nat (length oks) <=? RETRYMAX).
Proof.
  intros Hne HR He. destruct early as [|m].
  - rewrite connect_wifi_no_early, wait_disconnections_got_ip by done.
    by rewrite report_first_bit.
  - rewrite connect_wifi_start_early.
    rewrite take_app_le, drop_app_le by (rewrite length_fmap; lia).
    rewrite <- fmap_take, <- fmap_drop.
    rewrite run_disconnections_quiet;
      cbn [retryNumber wifi_event_group connect_calls];
      [|done|done|rewrite length_take; lia].
    rewrite wait_disconnections_got_ip;
      cbn [retryNumber wifi_event_group connect_calls];
      [|done|done|rewrite length_take; lia].
    rewrite report_first_bit.
    f_equal. f_equal. rewrite length_take, length_drop. lia.
Qed.

Lemma connect_wifi_disconnections_blocked (oks : list bool)
    (st : wifi_state) (early : nat) :
  START <> DISCONNECTED ->
  Z.of_nat (length oks) <= RETRYMAX ->
  connect_wifi RETRYMAX GOT_IP START DISCONNECTED true early
    ((true, WIFI_EVENT, START)
     :: ((fun ok => (ok, WIFI_EVENT, DISCONNECTED)) <$> oks)) st
  = Blocked.
Proof.
  intros Hne Hk. destruct early as [|m].
  - rewrite connect_wifi_no_early.
    rewrite wait_disconnections_blocked; [done|done|done|].
    cbn [retryNumber]. lia.
  - rewrite connect_wifi_start_early.
    rewrite <- fmap_take, <- fmap_drop.
    rewrite run_disconnections_quiet;
      cbn [retryNumber wifi_event_group connect_calls];
      [|done|done|rewrite length_take; lia].
    rewrite wait_disconnections_blocked;
      cbn [retryNumber wifi_event_group connect_calls]; [done|done|done|].
    rewrite length_take, length_drop. lia.
Qed.

Lemma connect_wifi_true_got_ip (setup_ok : bool) (early : nat)
    (events : list (bool * esp_event_base * Z)) (st : wifi_state) :
  connect_wifi RETRYMAX GOT_IP START DISCONNECTED setup_ok early events st
  = Returned true ->
  existsb (is_got_ip GOT_IP) events = true.
Proof.
  unfold connect_wifi. intros H.
  destruct (negb setup_ok); [done|]. fold run wait in H.
  destruct (run (take early events) _) as [st1|] eqn:H1; [|done].
  destruct (wait (drop early events) st1) as [bits| |] eqn:H2; [|done..].
  rewrite connected_test_bit0 in H.
  destruct (Z.testbit bits 0) eqn:Hb; [|done].
  pose proof (wait_returned_connected _ _ _ H2 Hb) as H3.
  rewrite (run_connected_bit _ _ _ H1) in H3.
  cbn [wifi_event_group] in H3. rewrite Z.testbit_0_l in H3.
  cbn [orb] in H3.
  by rewrite <- (take_drop early events), existsb_app.
Qed.

End WifiFacts.

(** X18: reconnection attempts are bounded.  From a retry counter at 0,
    [k] consecutive disconnection events make the handler call
    [esp_wifi_connect] [min k RETRYMAX] times; the counter stops at
    [RETRYMAX], and the failure bit of the event group is set exactly when
    [k] exceeds [RETRYMAX].  (The start and disconnection event
    identifiers differ.) *)
Theorem X18_reconnection_attempts_are_bounded :
  forall (RETRYMAX GOT_IP START DISCONNECTED : Z) (oks : list bool)
         (st : Wifi.wifi_state),
    START <> DISCONNECTED ->
    0 <= RETRYMAX ->
    Wifi.retryNumber st = 0 ->
    let k := Z.of_nat (length oks) in
    Wifi.handle_events RETRYMAX GOT_IP START DISCONNECTED
      ((fun ok => (ok, Wifi.WIFI_EVENT, DISCONNECTED)) <$> oks) st
    = Some (Wifi.Build_wifi_state
              (Z.min k RETRYMAX)
              (if k <=? RETRYMAX then Wifi.wifi_event_group st
               else Z.lor (Wifi.wifi_event_group st) Wifi.WIFI_FAIL_BIT)
              (Wifi.connect_calls st + Z.to_nat (Z.min k RETRYMAX))).
Proof.
  intros RETRYMAX GOT_IP START DISCONNECTED oks st Hne HR Hr k.
  rewrite (disconnections RETRYMAX GOT_IP START DISCONNECTED oks st Hne)
    by lia.
  cbv zeta. rewrite Hr, Z.sub_0_r. done.
Qed.

Lemma X18_reconnection_attempts_are_bounded_witness :
  Wifi.handle_events 5 0 2 5
    ((fun ok => (ok, Wifi.WIFI_EVENT, 5))
     <$> [true; false; true; true; true; true; true])
    (Wifi.Build_wifi_state 0 0 1)
  = Some (Wifi.Build_wifi_state
            (Z.min 7 5)
            (if 7 <=? 5 then 0 else Z.lor 0 Wifi.WIFI_FAIL_BIT)
            (1 + Z.to_nat (Z.min 7 5))).
Proof.
  apply (X18_reconnection_attempts_are_bounded 5 0 2 5
           [true; false; true; true; true; true; true]
           (Wifi.Build_wifi_state 0 0 1)).
  - discriminate.
  - lia.
  - reflexivity.
Defined.

(** X19: [connect_wifi] reports what happened first.  The handler is
    called for the start event, then [k] times for a disconnection, then
    for "got IP" (and then for any other events); the calling task reaches
    [xEventGroupWaitBits] before the first bit of the group is set (the
    handler was called at most [1 + min k RETRYMAX] times by then).  Then
    [connect_wifi] returns, and it returns [true] exactly when
    [k <= RETRYMAX]: with more disconnections the wait ends on the failure
    bit and the address obtained afterwards is not seen.  With at most
    [RETRYMAX] disconnections and no "got IP", [connect_wifi] stays
    blocked, whenever the wait begins.  And in every schedule and for all
    events, [connect_wifi] returns [true] only if one of the events is
    "got IP".  (The start and disconnection event identifiers differ.) *)
Theorem X19_connect_wifi_reports_first_outcome :
  forall (RETRYMAX GOT_IP START DISCONNECTED : Z) (oks : list bool)
         (ok' : bool) (rest : list (bool * Wifi.esp_event_base * Z))
         (st : Wifi.wifi_state) (early : nat),
    START <> DISCONNECTED ->
    0 <= RETRYMAX ->
    let k := Z.of_nat (length oks) in
    let connect_wifi :=
      Wifi.connect_wifi RETRYMAX GOT_IP START DISCONNECTED in
    let start := (true, Wifi.WIFI_EVENT, START) in
    let disconnections :=
      (fun ok => (ok, Wifi.WIFI_EVENT, DISCONNECTED)) <$> oks in
    Z.of_nat early <= 1 + Z.min k RETRYMAX ->
    connect_wifi true early
      (start :: disconnections ++ (ok', Wifi.IP_EVENT, GOT_IP) :: rest) st
    = Wifi.Returned (k <=? RETRYMAX)
    /\ (k <= RETRYMAX ->
        forall early' : nat,
          connect_wifi true early' (start :: disconnections) st
          = Wifi.Blocked)
    /\ (forall (setup_ok : bool) (early' : nat)
               (events : list (bool * Wifi.esp_event_base * Z))
               (st' : Wifi.wifi_state),
          connect_wifi setup_ok early' events st' = Wifi.Returned true ->
          existsb (Wifi.is_got_ip GOT_IP) events = true).
Proof.
  intros RETRYMAX GOT_IP START DISCONNECTED oks ok' rest st early Hne HR
    k connect_wifi start disconnections He.
  subst k connect_wifi start disconnections.
  split; [|split].
  - by apply connect_wifi_disconnections_got_ip.
  - intros Hk early'. by apply connect_wifi_disconnections_blocked.
  - intros setup_ok early' events st'.
    apply connect_wifi_true_got_ip.
Qed.

(** Six disconnections with [RETRYMAX = 5], then an address: the wait has
    returned on the failure bit. *)
Lemma X19_connect_wifi_reports_first_outcome_witness :
  Wifi.connect_wifi 5 0 2 5 true 1
    [(true, Wifi.WIFI_EVENT, 2); (true, Wifi.WIFI_EVENT, 5);
     (true, Wifi.WIFI_EVENT, 5); (true, Wifi.WIFI_EVENT, 5);
     (true, Wifi.WIFI_EVENT, 5); (true, Wifi.WIFI_EVENT, 5);
     (true, Wifi.WIFI_EVENT, 5); (true, Wifi.IP_EVENT, 0)]
    (Wifi.Build_wifi_state 0 0 0)
  = Wifi.Returned false.
Proof.
  refine (proj1 (X19_connect_wifi_reports_first_outcome 5 0 2 5
                   [true; true; true; true; true; true] true []
                   (Wifi.Build_wifi_state 0 0 0) 1 _ _ _)).
  - discriminate.
  - lia.
  - vm_compute. discriminate.
Defined.

(** * Properties of the MQTT string helpers *)

Section CStringFacts.
Import CString.

Lemma strlen_append (s1 s2 : string) :
  strlen (s1 +:+ s2) = (strlen s1 + strlen s2)%nat.
Proof.
  unfold strlen. induction s1 as [|a s1 IH]; simpl; [done|]. by rewrite IH.
Qed.

Lemma strcat_fits (dst : buffer) (src : string) :
  (strlen (text dst) + strlen src + 1 <= capacity dst)%nat ->
  strcat dst src = Done (Build_buffer (capacity dst) (text dst +:+ src)).
Proof.
  intros H. unfold strcat.
  destruct (Nat.leb_spec (strlen (text dst) + strlen src + 1) (capacity dst));
    [done|lia].
Qed.

End CStringFacts.

(** X21: [append_str] asks [realloc] for exactly the bytes it then fills,
    the length of the string, plus the length of the addition, plus 1, so the concatenation fits with
    no byte to spare; [create_str] asks [malloc] for [strlen(init_str)]
    bytes and then copies [strlen(init_str) + 1], so whenever the
    allocation succeeds the terminating NUL is written one byte past the
    block, for every initial string; when it fails the chip is
    restarted. *)
Theorem X21_append_fits_create_writes_past_block :
  forall (str : CString.buffer) (s : string),
    CString.append_str true str s
    = CString.Done
        (CString.Build_buffer
           (CString.strlen (CString.text str +:+ s) + 1)
           (CString.text str +:+ s))
    /\ CString.create_str true s = CString.Undefined
    /\ CString.create_str false s = CString.Restarted
    /\ CString.append_str false str s = CString.Restarted.
Proof.
  intros str s. split; [|split; [|done]].
  - unfold CString.append_str. cbn [negb].
    rewrite strcat_fits by (cbn [CString.capacity CString.text]; lia).
    cbn [CString.capacity CString.text].
    rewrite strlen_append. do 2 f_equal. lia.
  - unfold CString.create_str, CString.strcpy, CString.fresh_block.
    cbn [negb CString.capacity].
    destruct (Nat.leb_spec (CString.strlen s + 1) (CString.strlen s * 1));
      [lia|done].
Qed.
